(** * vtu-vtk: the mock RPC server and the ParaView protocol handlers

    A shallow embedding of [simple_test_server.py] (module [Mock]) and of
    [paraview_server.py] (module [Server]), followed by the properties of
    the RPC surface that the specification states.

    Python values are modelled as data ([Py.json] for what [json.loads]
    yields, [Server.pyval] for what the protocol handlers return), Python
    exceptions as values of [Py.exn] carried in the left summand of a
    result, and the calls into the visualization engine as requests to an
    oracle whose answers the handlers cannot predict.

    Left out: the [logger] and [print] calls (output only), the socket
    set-up of [start_server], and [main], which only prints. *)

From Stdlib Require Import ZArith List String Ascii Lia Bool QArith Lqa.
From Stdlib Require Import DecimalString.
From Stdlib Require Import Floats.PrimFloat Floats.FloatOps.
From Stdlib Require Import Numbers.Cyclic.Int63.Uint63.
From stdpp Require Import base gmap sets strings.
Import ListNotations.

Local Open Scope Z_scope.
Local Open Scope string_scope.

(* ================================================================= *)
(** ** Python values, exceptions and the few built-ins the scripts use *)

Module Py.

(** A raised exception: its class name and the text [str(e)] gives.  These
    are instances of [Exception], the ones an [except Exception] clause
    catches; interpreter exits ([KeyboardInterrupt], [SystemExit]) are not
    part of the model. *)
Inductive exn : Type := Exn (cls : string) (text : string).

Definition str_exn (e : exn) : string := let 'Exn _ t := e in t.

(** Results of code that may raise: [inl e] is a raised exception. *)
Definition result (A : Type) : Type := exn + A.

Definition ret {A} (a : A) : result A := inr a.
Definition raise {A} (e : exn) : result A := inl e.
Definition bind {A B} (m : result A) (k : A -> result B) : result B :=
  match m with
  | inl e => inl e
  | inr a => k a
  end.

(** The values [json.loads] produces.  A float is carried by its [repr]
    (the mock never computes with numbers, it echoes and formats them);
    a dict is the list of its items in insertion order, keys unique. *)
#[warnings="-register-all"] Inductive json : Type :=
| JNull
| JBool (b : bool)
| JInt (z : Z)
| JFloat (repr : string)
| JStr (s : string)
| JList (l : list json)
| JDict (items : list (string * json)).

Definition type_name (v : json) : string :=
  match v with
  | JNull => "NoneType"
  | JBool _ => "bool"
  | JInt _ => "int"
  | JFloat _ => "float"
  | JStr _ => "str"
  | JList _ => "list"
  | JDict _ => "dict"
  end.

Definition AttributeError (ty attr : string) : exn :=
  Exn "AttributeError" ("'" ++ ty ++ "' object has no attribute '" ++ attr ++ "'").

(** Reading a local name that no assignment has bound yet. *)
Definition UnboundLocalError (name : string) : exn :=
  Exn "UnboundLocalError"
      ("cannot access local variable '" ++ name
       ++ "' where it is not associated with a value").

Fixpoint assoc {A} (key : string) (items : list (string * A)) : option A :=
  match items with
  | [] => None
  | (k, v) :: rest => if String.eqb k key then Some v else assoc key rest
  end.

(** [v.get(key, default)]: only a dict has the method. *)
Definition py_get (v : json) (key : string) (default : json) : result json :=
  match v with
  | JDict items => ret (match assoc key items with
                        | Some x => x
                        | None => default
                        end)
  | _ => raise (AttributeError (type_name v) "get")
  end.

(** [v == s] for a string literal [s]: only an equal [str] compares equal. *)
Definition py_eq_str (v : json) (s : string) : bool :=
  match v with
  | JStr t => String.eqb t s
  | _ => false
  end.

Definition string_of_Z (z : Z) : string := NilZero.string_of_int (Z.to_int z).

(** What an f-string substitutes for [{v}]: [str(v)].  For a list or a
    dict that is Python's [repr] of the container, a built-in of the
    interpreter that is taken as it is. *)
Section Str.

Variable py_repr : json -> string.

Definition py_str (v : json) : string :=
  match v with
  | JStr s => s
  | JNull => "None"
  | JBool true => "True"
  | JBool false => "False"
  | JInt z => string_of_Z z
  | JFloat r => r
  | JList _ | JDict _ => py_repr v
  end.

End Str.

End Py.

Declare Scope py_scope.
Delimit Scope py_scope with py.
Notation "x <- m ;; k" := (Py.bind m (fun x => k))
  (at level 100, m at next level, right associativity) : py_scope.

(* ================================================================= *)
(** ** simple_test_server.py *)

Module Mock.
Import Py.

(** A websocket connection, named by a number. *)
Definition websocket := nat.

Record MockParaViewServer : Type := {
  connected_clients : gset websocket
}.

(** [MockParaViewServer.__init__] *)
Definition init : MockParaViewServer := {| connected_clients := ∅ |}.

(** [websockets.exceptions.ConnectionClosed] and its two subclasses. *)
Definition is_connection_closed (e : exn) : bool :=
  let 'Exn cls _ := e in
  String.eqb cls "ConnectionClosed" || String.eqb cls "ConnectionClosedOK"
  || String.eqb cls "ConnectionClosedError".

Section WithJsonLibrary.

(** [json.loads] and [json.dumps] of the Python standard library, and the
    interpreter's [repr] of a list or dict. *)
Variable json_loads : string -> result json.
Variable json_dumps : json -> string.
Variable py_repr : json -> string.

Definition success_response (id : json) (result : list (string * json)) : json :=
  JDict [("id", id); ("result", JDict result)].

(** [MockParaViewServer.process_message].  [data] is bound only once
    [json.loads] has returned; the [except] clause reads it again. *)
Definition process_message (self : MockParaViewServer) (message : string)
  : result string * MockParaViewServer :=
  let data := json_loads message in
  let attempt : result string :=
    (data <- data ;;
     method <- py_get data "method" (JStr "") ;;
     if py_eq_str method "vtk.initialize" then
       id <- py_get data "id" JNull ;;
       ret (json_dumps (success_response id
         [("status", JStr "success");
          ("message", JStr "Mock ParaView initialized");
          ("data_arrays", JList [JStr "Temperature"; JStr "Pressure"; JStr "Velocity"]);
          ("bounds", JList [JInt (-100); JInt 100; JInt (-50); JInt 50; JInt (-75); JInt 75]);
          ("points", JInt 1234567);
          ("cells", JInt 987654)]))
     else if py_eq_str method "vtk.apply_color_map" then
       id <- py_get data "id" JNull ;;
       params <- py_get data "params" (JDict []) ;;
       array_name <- py_get params "array_name" (JStr "unknown") ;;
       ret (json_dumps (success_response id
         [("status", JStr "success");
          ("message", JStr ("Applied color map to " ++ py_str py_repr array_name))]))
     else if py_eq_str method "vtk.generate_contours" then
       id <- py_get data "id" JNull ;;
       ret (json_dumps (success_response id
         [("status", JStr "success");
          ("message", JStr "Generated 5 contours");
          ("contour_values", JList [JInt 10; JInt 20; JInt 30; JInt 40; JInt 50])]))
     else
       id <- py_get data "id" JNull ;;
       ret (json_dumps (success_response id
         [("status", JStr "success");
          ("message", JStr ("Mock response for " ++ py_str py_repr method))])))%py
  in
  match attempt with
  | inr response => (ret response, self)
  | inl e =>
      (* except Exception as e *)
      (match data with
       | inl _ => raise (UnboundLocalError "data")
       | inr data =>
           (id <- py_get data "id" (JInt 0) ;;
            ret (json_dumps
                   (JDict [("id", id);
                           ("error", JDict [("message", JStr (str_exn e))])])))%py
       end, self)
  end.

(** The message loop of [handle_client].  The connection delivers each
    message together with what [websocket.send] does with the response to
    it: it returns, or it raises.  Every message is answered in turn; an
    exception leaving [process_message] or [send] ends the loop. *)
Fixpoint serve (self : MockParaViewServer) (inbox : list (string * result unit))
  : list string * option exn * MockParaViewServer :=
  match inbox with
  | [] => ([], None, self)
  | (message, send) :: rest =>
      match process_message self message with
      | (inl e, self') => ([], Some e, self')
      | (inr response, self') =>
          match send with
          | inl e => ([], Some e, self')
          | inr _ =>
              let '(sent, raised, self'') := serve self' rest in
              (response :: sent, raised, self'')
          end
      end
  end.

(** [MockParaViewServer.handle_client], followed for one connection:
    [inbox] is what the client sends before the connection closes.  The
    result is what was sent back, the exception that escaped (if any) and
    the server afterwards.  A [ConnectionClosed] is caught and logged; the
    [finally] clause runs on every exit.  Handlers of other connections
    run only while this one waits, and add or discard their own websocket
    only; they are not part of this run. *)
Definition handle_client (self : MockParaViewServer) (ws : websocket)
           (inbox : list (string * result unit))
  : list string * option exn * MockParaViewServer :=
  let self1 := {| connected_clients := connected_clients self ∪ {[ ws ]} |} in
  let '(sent, raised, self2) := serve self1 inbox in
  let escaped := match raised with
                 | Some e => if is_connection_closed e then None else Some e
                 | None => None
                 end in
  (sent, escaped, {| connected_clients := connected_clients self2 ∖ {[ ws ]} |}).

End WithJsonLibrary.

End Mock.


(* ================================================================= *)
(** ** A reference JSON codec, to run the mock on concrete messages

    [Mock.process_message] is stated for any decoder, encoder and [repr].
    The examples below run it with this codec, which follows [json.loads],
    [json.dumps] (default options) and [repr] on ASCII texts whose numbers
    are integers; a text outside that fragment is reported as such. *)

Module RefCodec.
Import Py.

Definition hex_digit (n : nat) : ascii :=
  match n with
  | 10 => "a" | 11 => "b" | 12 => "c" | 13 => "d" | 14 => "e" | 15 => "f"
  | _ => ascii_of_nat (48 + n)
  end%nat%char.

Definition hex2 (n : nat) : string :=
  String (hex_digit (n / 16)) (String (hex_digit (n mod 16)) EmptyString).

Fixpoint contains (c : ascii) (s : string) : bool :=
  match s with
  | EmptyString => false
  | String d rest => Ascii.eqb c d || contains c rest
  end.

Definition squote : ascii := "'"%char.
Definition dquote : ascii := ascii_of_nat 34.
Definition backslash : ascii := ascii_of_nat 92.

(** [repr] of an ASCII [str]: single quotes unless the text has a single
    quote and no double quote; the quote, the backslash and control
    characters are escaped. *)
Fixpoint repr_chars (quote : ascii) (s : string) : string :=
  match s with
  | EmptyString => EmptyString
  | String c rest =>
      let n := nat_of_ascii c in
      (if Ascii.eqb c quote || Ascii.eqb c backslash
       then String backslash (String c EmptyString)
       else if Nat.eqb n 9 then String backslash "t"
       else if Nat.eqb n 10 then String backslash "n"
       else if Nat.eqb n 13 then String backslash "r"
       else if Nat.ltb n 32 || Nat.eqb n 127
            then String backslash ("x" ++ hex2 n)
       else String c EmptyString)
      ++ repr_chars quote rest
  end.

Fixpoint is_ascii (s : string) : bool :=
  match s with
  | EmptyString => true
  | String c rest => Nat.ltb (nat_of_ascii c) 128 && is_ascii rest
  end.

(** Text beyond ASCII is outside the fragment, and is reported as such. *)
Definition repr_str (s : string) : string :=
  if is_ascii s then
    let quote := if contains squote s && negb (contains dquote s)
                 then dquote else squote in
    String quote (repr_chars quote s) ++ String quote EmptyString
  else "<text outside the ASCII fragment>".

Fixpoint join (sep : string) (l : list string) : string :=
  match l with
  | [] => EmptyString
  | [x] => x
  | x :: rest => x ++ sep ++ join sep rest
  end.

(** [repr] on the fragment. *)
Fixpoint py_repr (v : json) : string :=
  match v with
  | JNull => "None"
  | JBool true => "True"
  | JBool false => "False"
  | JInt z => string_of_Z z
  | JFloat r => r
  | JStr s => repr_str s
  | JList l => "[" ++ join ", " (List.map py_repr l) ++ "]"
  | JDict items =>
      "{" ++ join ", " (List.map (fun kv => repr_str (fst kv) ++ ": " ++ py_repr (snd kv))
                                 items) ++ "}"
  end.

Inductive parsed (A : Type) : Type :=
| Parsed (a : A) (rest : string)
| Malformed
| Unsupported.
Arguments Parsed {A} a rest.
Arguments Malformed {A}.
Arguments Unsupported {A}.

Definition is_ws (c : ascii) : bool :=
  let n := nat_of_ascii c in
  Nat.eqb n 32 || Nat.eqb n 9 || Nat.eqb n 10 || Nat.eqb n 13.

Fixpoint skip_ws (s : string) : string :=
  match s with
  | String c rest => if is_ws c then skip_ws rest else s
  | EmptyString => s
  end.

Definition is_digit (c : ascii) : bool :=
  let n := nat_of_ascii c in Nat.leb 48 n && Nat.leb n 57.

Fixpoint take_digits (s : string) (acc : Z) : Z * string :=
  match s with
  | String c rest =>
      if is_digit c
      then take_digits rest (10 * acc + Z.of_nat (nat_of_ascii c - 48))
      else (acc, s)
  | EmptyString => (acc, s)
  end.

Fixpoint strip_prefix (lit s : string) : option string :=
  match lit, s with
  | EmptyString, _ => Some s
  | String a lit', String b s' => if Ascii.eqb a b then strip_prefix lit' s' else None
  | String _ _, EmptyString => None
  end.

(** An integer literal: an optional minus sign, then 0 or a digit string
    that does not start with 0. *)
Definition parse_int (s : string) : parsed json :=
  let '(neg, s1) := match s with
                    | String "-" r => (true, r)
                    | _ => (false, s)
                    end in
  match s1 with
  | String c r =>
      if is_digit c then
        let '(n, rest) := if Ascii.eqb c "0" then (0, r) else take_digits s1 0 in
        match rest with
        | String d _ =>
            if Ascii.eqb d "." || Ascii.eqb d "e" || Ascii.eqb d "E"
            then Unsupported
            else Parsed (JInt (if neg then - n else n)) rest
        | EmptyString => Parsed (JInt (if neg then - n else n)) rest
        end
      else if neg && Ascii.eqb c "I" then Unsupported
      else Malformed
  | EmptyString => Malformed
  end.

Definition unescape (c : ascii) : option ascii :=
  if Ascii.eqb c dquote then Some dquote
  else if Ascii.eqb c backslash then Some backslash
  else if Ascii.eqb c "/" then Some "/"%char
  else if Ascii.eqb c "b" then Some (ascii_of_nat 8)
  else if Ascii.eqb c "f" then Some (ascii_of_nat 12)
  else if Ascii.eqb c "n" then Some (ascii_of_nat 10)
  else if Ascii.eqb c "r" then Some (ascii_of_nat 13)
  else if Ascii.eqb c "t" then Some (ascii_of_nat 9)
  else None.

Definition cons_char (c : ascii) (p : parsed string) : parsed string :=
  match p with
  | Parsed a rest => Parsed (String c a) rest
  | other => other
  end.

(** The text of a string literal, after its opening quote. *)
Fixpoint parse_string_body (s : string) : parsed string :=
  match s with
  | EmptyString => Malformed
  | String c rest =>
      if Ascii.eqb c dquote then Parsed EmptyString rest
      else if Ascii.eqb c backslash then
        match rest with
        | String e rest' =>
            match unescape e with
            | Some ch => cons_char ch (parse_string_body rest')
            | None => if Ascii.eqb e "u" then Unsupported else Malformed
            end
        | EmptyString => Malformed
        end
      else if Nat.ltb (nat_of_ascii c) 32 then Malformed
      else if Nat.leb 128 (nat_of_ascii c) then Unsupported
      else cons_char c (parse_string_body rest)
  end.

(** [d[k] = v] on the item list of a dict. *)
Fixpoint dict_set (k : string) (v : json) (items : list (string * json))
  : list (string * json) :=
  match items with
  | [] => [(k, v)]
  | (k', v') :: rest =>
      if String.eqb k' k then (k', v) :: rest else (k', v') :: dict_set k v rest
  end.

Definition dict_of_pairs (pairs : list (string * json)) : list (string * json) :=
  fold_left (fun items kv => dict_set (fst kv) (snd kv) items) pairs [].

Fixpoint parse_value (fuel : nat) (s : string) : parsed json :=
  match fuel with
  | O => Unsupported
  | S fuel =>
      match s with
      | EmptyString => Malformed
      | String c rest =>
          if Ascii.eqb c dquote then
            match parse_string_body rest with
            | Parsed a r => Parsed (JStr a) r
            | Malformed => Malformed
            | Unsupported => Unsupported
            end
          else if Ascii.eqb c "[" then
            match skip_ws rest with
            | String "]" r => Parsed (JList []) r
            | s1 => match parse_elements fuel s1 with
                    | Parsed l r => Parsed (JList l) r
                    | Malformed => Malformed
                    | Unsupported => Unsupported
                    end
            end
          else if Ascii.eqb c "{" then
            match skip_ws rest with
            | String "}" r => Parsed (JDict []) r
            | s1 => match parse_members fuel s1 with
                    | Parsed l r => Parsed (JDict (dict_of_pairs l)) r
                    | Malformed => Malformed
                    | Unsupported => Unsupported
                    end
            end
          else match strip_prefix "null" s, strip_prefix "true" s, strip_prefix "false" s with
               | Some r, _, _ => Parsed JNull r
               | _, Some r, _ => Parsed (JBool true) r
               | _, _, Some r => Parsed (JBool false) r
               | None, None, None =>
                   match strip_prefix "NaN" s, strip_prefix "Infinity" s with
                   | None, None => parse_int s
                   | _, _ => Unsupported
                   end
               end
      end
  end
with parse_elements (fuel : nat) (s : string) : parsed (list json) :=
  match fuel with
  | O => Unsupported
  | S fuel =>
      match parse_value fuel s with
      | Parsed v r =>
          match skip_ws r with
          | String "," r' =>
              match parse_elements fuel (skip_ws r') with
              | Parsed vs r'' => Parsed (v :: vs) r''
              | other => other
              end
          | String "]" r' => Parsed [v] r'
          | _ => Malformed
          end
      | Malformed => Malformed
      | Unsupported => Unsupported
      end
  end
with parse_members (fuel : nat) (s : string) : parsed (list (string * json)) :=
  match fuel with
  | O => Unsupported
  | S fuel =>
      match s with
      | String c rest =>
          if Ascii.eqb c dquote then
            match parse_string_body rest with
            | Parsed key r =>
                match skip_ws r with
                | String ":" r1 =>
                    match parse_value fuel (skip_ws r1) with
                    | Parsed v r2 =>
                        match skip_ws r2 with
                        | String "," r3 =>
                            match parse_members fuel (skip_ws r3) with
                            | Parsed kvs r4 => Parsed ((key, v) :: kvs) r4
                            | other => other
                            end
                        | String "}" r3 => Parsed [(key, v)] r3
                        | _ => Malformed
                        end
                    | Malformed => Malformed
                    | Unsupported => Unsupported
                    end
                | _ => Malformed
                end
            | Malformed => Malformed
            | Unsupported => Unsupported
            end
          else Malformed
      | EmptyString => Malformed
      end
  end.

Definition JSONDecodeError (text : string) : exn := Exn "JSONDecodeError" text.

(** [json.loads] on the fragment. *)
Definition json_loads (message : string) : result json :=
  match parse_value (2 * String.length message + 2) (skip_ws message) with
  | Parsed v rest =>
      match skip_ws rest with
      | EmptyString => ret v
      | _ => raise (JSONDecodeError "Extra data")
      end
  | Malformed => raise (JSONDecodeError "Expecting value")
  | Unsupported => raise (Exn "NotImplementedError" "text outside the decoded fragment")
  end.

Definition hex4 (n : nat) : string := "00" ++ hex2 n.

Fixpoint escape_chars (s : string) : string :=
  match s with
  | EmptyString => EmptyString
  | String c rest =>
      let n := nat_of_ascii c in
      (if Ascii.eqb c dquote || Ascii.eqb c backslash
       then String backslash (String c EmptyString)
       else if Nat.eqb n 10 then String backslash "n"
       else if Nat.eqb n 13 then String backslash "r"
       else if Nat.eqb n 9 then String backslash "t"
       else if Nat.eqb n 8 then String backslash "b"
       else if Nat.eqb n 12 then String backslash "f"
       else if Nat.ltb n 32 || Nat.eqb n 127 then String backslash ("u" ++ hex4 n)
       else String c EmptyString)
      ++ escape_chars rest
  end.

Definition encode_str (s : string) : string :=
  String dquote (escape_chars s) ++ String dquote EmptyString.

Definition encode_float (repr : string) : string :=
  if String.eqb repr "inf" then "Infinity"
  else if String.eqb repr "-inf" then "-Infinity"
  else if String.eqb repr "nan" then "NaN"
  else repr.

(** [json.dumps] with its default separators. *)
Fixpoint json_dumps (v : json) : string :=
  match v with
  | JNull => "null"
  | JBool true => "true"
  | JBool false => "false"
  | JInt z => string_of_Z z
  | JFloat r => encode_float r
  | JStr s => encode_str s
  | JList l => "[" ++ join ", " (List.map json_dumps l) ++ "]"
  | JDict items =>
      "{" ++ join ", " (List.map (fun kv => encode_str (fst kv) ++ ": " ++ json_dumps (snd kv))
                                 items) ++ "}"
  end.

(** JSON texts are written below with ['] for the double quote. *)
Fixpoint dq (s : string) : string :=
  match s with
  | EmptyString => EmptyString
  | String c rest => String (if Ascii.eqb c squote then dquote else c) (dq rest)
  end.

Definition process (message : string) : result string :=
  fst (Mock.process_message json_loads json_dumps py_repr Mock.init message).

End RefCodec.


(* ================================================================= *)
(** ** paraview_server.py *)

Module Server.
Import Py.

(** *** Numbers

    The contour levels are computed with Python's arithmetic on the
    numbers the engine reports as an array's range: binary64 floats.  The
    arithmetic is written once over an interface with two instances, the
    floats the script runs on and the exact rationals they approximate. *)

Class Number (R : Type) : Type := {
  num_add : R -> R -> R;
  num_sub : R -> R -> R;
  num_mul : R -> R -> R;
  (** [a / b]: division by zero raises [ZeroDivisionError] *)
  num_div : R -> R -> result R;
  (** an [int] operand is converted first: [OverflowError] when too large *)
  num_of_int : Z -> result R
}.

Definition ZeroDivisionError : exn := Exn "ZeroDivisionError" "float division by zero".
Definition OverflowError : exn := Exn "OverflowError" "int too large to convert to float".

(** The float nearest to a natural number (ties to even).  Above 62 bits
    the low bits are first folded into one sticky bit, which leaves the
    rounding of the 62-bit prefix unchanged. *)
Definition nat_to_float (z : Z) : float :=
  if (z <? 2 ^ 62)%Z then of_uint63 (of_Z z)
  else
    let k := Z.log2 z - 61 in
    let sticky := if (Z.land z (Z.ones k) =? 0)%Z then 0 else 1 in
    Z.ldexp (of_uint63 (of_Z (Z.lor (Z.shiftr z k) sticky))) k.

Definition int_to_float (z : Z) : result float :=
  if (1024 <=? Z.log2 (Z.abs z))%Z then raise OverflowError
  else
    let f := nat_to_float (Z.abs z) in
    if is_infinity f then raise OverflowError
    else ret (if (z <? 0)%Z then PrimFloat.opp f else f).

Definition float_div (a b : float) : result float :=
  if PrimFloat.eqb b PrimFloat.zero then raise ZeroDivisionError
  else ret (PrimFloat.div a b).

#[export] Instance float_number : Number float := {|
  num_add := PrimFloat.add;
  num_sub := PrimFloat.sub;
  num_mul := PrimFloat.mul;
  num_div := float_div;
  num_of_int := int_to_float
|}.

#[export] Instance Q_number : Number Q := {|
  num_add := Qplus;
  num_sub := Qminus;
  num_mul := Qmult;
  num_div := fun a b => if Qeq_bool b (0 # 1) then raise ZeroDivisionError
                        else ret (Qdiv a b);
  num_of_int := fun z => ret (inject_Z z)
|}.

(** [range(n)] *)
Definition py_range (n : Z) : list Z := List.map Z.of_nat (seq 0 (Z.to_nat n)).

(** A list comprehension whose element expression may raise. *)
Fixpoint comprehension {A B} (f : A -> result B) (l : list A) : result (list B) :=
  match l with
  | [] => ret []
  | a :: rest =>
      (b <- f a ;;
       bs <- comprehension f rest ;;
       ret (b :: bs))%py
  end.

(** Lines 192-194 of [generate_contours]:
    [step = (max_val - min_val) / (num_contours + 1)] and
    [[min_val + step * (i + 1) for i in range(num_contours)]]. *)
Definition contour_levels {R} `{Number R} (min_val max_val : R) (num_contours : Z)
  : result (list R) :=
  (divisor <- num_of_int (num_contours + 1) ;;
   step <- num_div (num_sub max_val min_val) divisor ;;
   comprehension (fun i => k <- num_of_int (i + 1) ;;
                           ret (num_add min_val (num_mul step k)))
                 (py_range num_contours))%py.

(** *** Values handed to and returned by the handlers *)

#[warnings="-register-all"] Inductive pyval : Type :=
| PNone
| PBool (b : bool)
| PInt (z : Z)
| PFloat (f : float)
| PStr (s : string)
| PList (l : list pyval)
| PTuple (l : list pyval)
| PDict (items : list (string * pyval)).

(** An object living in the engine (a proxy or an information object). *)
Definition proxy := nat.

(** One entry of [self.data_arrays]. *)
Record data_array : Type := {
  da_name : string;
  da_range : float * float;
  da_components : Z
}.

Definition data_array_dict (a : data_array) : pyval :=
  PDict [("name", PStr (da_name a));
         ("range", PTuple [PFloat (fst (da_range a)); PFloat (snd (da_range a))]);
         ("components", PInt (da_components a))].

(** The attributes [__init__] sets on the protocol object. *)
Record VtkVisualizationProtocol : Type := {
  view : option proxy;
  reader : option proxy;
  current_representation : option proxy;
  contour_filter : option proxy;
  volume_representation : option proxy;
  data_arrays : list data_array;
  color_map : option proxy
}.

(** [VtkVisualizationProtocol.__init__] *)
Definition init : VtkVisualizationProtocol := {|
  view := None; reader := None; current_representation := None;
  contour_filter := None; volume_representation := None;
  data_arrays := []; color_map := None
|}.

Definition set_view (v : option proxy) (self : VtkVisualizationProtocol) :=
  {| view := v; reader := reader self;
     current_representation := current_representation self;
     contour_filter := contour_filter self;
     volume_representation := volume_representation self;
     data_arrays := data_arrays self; color_map := color_map self |}.

Definition set_reader (r : option proxy) (self : VtkVisualizationProtocol) :=
  {| view := view self; reader := r;
     current_representation := current_representation self;
     contour_filter := contour_filter self;
     volume_representation := volume_representation self;
     data_arrays := data_arrays self; color_map := color_map self |}.

Definition set_current_representation (r : option proxy) (self : VtkVisualizationProtocol) :=
  {| view := view self; reader := reader self;
     current_representation := r;
     contour_filter := contour_filter self;
     volume_representation := volume_representation self;
     data_arrays := data_arrays self; color_map := color_map self |}.

Definition set_contour_filter (c : option proxy) (self : VtkVisualizationProtocol) :=
  {| view := view self; reader := reader self;
     current_representation := current_representation self;
     contour_filter := c;
     volume_representation := volume_representation self;
     data_arrays := data_arrays self; color_map := color_map self |}.

Definition set_data_arrays (l : list data_array) (self : VtkVisualizationProtocol) :=
  {| view := view self; reader := reader self;
     current_representation := current_representation self;
     contour_filter := contour_filter self;
     volume_representation := volume_representation self;
     data_arrays := l; color_map := color_map self |}.

(** *** The engine

    Every use of [paraview.simple], of an engine object or of [os.path] is
    a call; what it returns, or raises, is the engine's business. *)

Inductive call : Type :=
| CreateView (kind : string)
| SetAttr (obj : proxy) (attr : string) (value : pyval)
| PathExists (path : string)
| LegacyVTKReader (file_names : list string)
| Show (source : option proxy) (in_view : option proxy)
| GetDataInformation (source : proxy)
| GetPointDataInformation (info : proxy)
| GetNumberOfArrays (point_data : proxy)
| GetArrayInformation (point_data : proxy) (index : Z)
| GetName (array_info : proxy)
| GetComponentRange (array_info : proxy) (component : Z)
| GetNumberOfComponents (array_info : proxy)
| ResetCamera (of_view : proxy)
| Render (in_view : option proxy)
| GetBounds (info : proxy)
| GetNumberOfPoints (info : proxy)
| GetNumberOfCells (info : proxy)
| ColorBy (representation : proxy) (association array : string)
| GetColorTransferFunction (array : string)
| ApplyPreset (transfer_function : proxy) (preset : string) (rescale : bool)
| GetScalarBar (transfer_function : proxy) (in_view : option proxy)
| Contour (input : proxy)
| SaveScreenshot (filename : string) (of_view : option proxy) (resolution : list Z).

Definition ret_type (c : call) : Type :=
  match c with
  | CreateView _ | LegacyVTKReader _ | Show _ _ | GetDataInformation _
  | GetPointDataInformation _ | GetArrayInformation _ _
  | GetColorTransferFunction _ | GetScalarBar _ _ | Contour _ => proxy
  | SetAttr _ _ _ | ResetCamera _ | Render _ | ColorBy _ _ _
  | ApplyPreset _ _ _ | SaveScreenshot _ _ _ => unit
  | PathExists _ => bool
  | GetNumberOfArrays _ | GetNumberOfComponents _
  | GetNumberOfPoints _ | GetNumberOfCells _ => Z
  | GetName _ => string
  | GetComponentRange _ _ => (float * float)%type
  | GetBounds _ => list float
  end.

(** The engine answers a call knowing the calls made before it. *)
Definition engine_t : Type := list call -> forall c : call, result (ret_type c).

(** *** Handler code: the protocol object and the call log are threaded
    through; a raised exception keeps the state reached so far. *)

Definition state : Type := VtkVisualizationProtocol * list call.
Definition M (A : Type) : Type := state -> result A * state.

Definition mret {A} (a : A) : M A := fun s => (ret a, s).
Definition mraise {A} (e : exn) : M A := fun s => (raise e, s).
Definition mbind {A B} (m : M A) (k : A -> M B) : M B :=
  fun s => match m s with
           | (inl e, s') => (inl e, s')
           | (inr a, s') => k a s'
           end.
Definition lift {A} (r : result A) : M A := fun s => (r, s).
Definition gets {A} (field : VtkVisualizationProtocol -> A) : M A :=
  fun s => (ret (field (fst s)), s).
Definition modify (f : VtkVisualizationProtocol -> VtkVisualizationProtocol) : M unit :=
  fun s => (ret tt, (f (fst s), snd s)).

(** [try: body / except Exception as e: handler e] *)
Definition try_except {A} (body : M A) (handler : exn -> M A) : M A :=
  fun s => match body s with
           | (inl e, s') => handler e s'
           | (inr a, s') => (inr a, s')
           end.

Declare Scope handler_scope.
Delimit Scope handler_scope with M.
Notation "x <- m ;; k" := (mbind m (fun x => k))
  (at level 100, m at next level, right associativity) : handler_scope.
Notation "m ;;; k" := (mbind m (fun _ => k))
  (at level 100, right associativity) : handler_scope.

Fixpoint for_each {A} (l : list A) (body : A -> M unit) : M unit :=
  match l with
  | [] => mret tt
  | a :: rest => (body a ;;; for_each rest body)%M
  end.

(** [os.path.join] with the POSIX separator. *)
Definition os_path_join (a b : string) : string := a ++ "/" ++ b.

(** The dicts the handlers return. *)
Definition status_dict (status message : string) (more : list (string * pyval)) : pyval :=
  PDict ([("status", PStr status); ("message", PStr message)] ++ more)%list.

(** [color_map_presets] of [apply_color_map] *)
Definition color_map_presets : gmap string string :=
  list_to_map
    [("Cool to Warm", "Cool to Warm");
     ("Blue to Red Rainbow", "Blue to Red Rainbow");
     ("Viridis", "Viridis");
     ("Plasma", "Plasma");
     ("Inferno", "Inferno");
     ("Hot", "Hot");
     ("Jet", "jet");
     ("Grayscale", "Grayscale")].

(** The [@pv_wslink.register] decorators: RPC name and decorated method. *)
Inductive handler : Type :=
| Initialize_visualization
| Apply_color_map
| Generate_contours
| Export_image.

Definition registered : list (string * handler) :=
  [("vtk.initialize", Initialize_visualization);
   ("vtk.apply_color_map", Apply_color_map);
   ("vtk.generate_contours", Generate_contours);
   ("vtk.export_image", Export_image)].

(** The handler an RPC name reaches, if any. *)
Definition lookup_handler (method : string) : option handler := assoc method registered.

Section WithEngine.

Variable engine : engine_t.

(** One call into the engine, recorded in the log. *)
Definition perform (c : call) : M (ret_type c) :=
  fun s => (engine (snd s) c, (fst s, (snd s ++ [c])%list)).

(** [self.<field>.<attr> = value]; [None] has no attributes. *)
Definition set_attr (field : VtkVisualizationProtocol -> option proxy)
           (attr : string) (value : pyval) : M unit :=
  (o <- gets field ;;
   match o with
   | Some p => perform (SetAttr p attr value)
   | None => mraise (AttributeError "NoneType" attr)
   end)%M.

(** [self.<field>.<method>(...)] *)
Definition on_attr {A} (field : VtkVisualizationProtocol -> option proxy)
           (method : string) (k : proxy -> M A) : M A :=
  (o <- gets field ;;
   match o with
   | Some p => k p
   | None => mraise (AttributeError "NoneType" method)
   end)%M.

(** [initialize_visualization], registered as [vtk.initialize] *)
#[warnings="-inexact-float"] Definition initialize_visualization : M pyval :=
  try_except
    (v <- perform (CreateView "RenderView") ;;
     modify (set_view (Some v)) ;;;
     set_attr view "ViewSize" (PList [PInt 1200; PInt 800]) ;;;
     set_attr view "Background" (PList [PFloat 0.1; PFloat 0.1; PFloat 0.1]) ;;;
     let vtk_file_path := os_path_join "public" "Topology.vtk" in
     found <- perform (PathExists vtk_file_path) ;;
     let vtk_file_path := if negb found then "Topology.vtk" else vtk_file_path in
     found <- perform (PathExists vtk_file_path) ;;
     if found then
       r <- perform (LegacyVTKReader [vtk_file_path]) ;;
       modify (set_reader (Some r)) ;;;
       r <- gets reader ;;
       v <- gets view ;;
       rep <- perform (Show r v) ;;
       modify (set_current_representation (Some rep)) ;;;
       set_attr current_representation "Representation" (PStr "Surface") ;;;
       set_attr current_representation "DiffuseColor"
                (PList [PFloat 1.0; PFloat 0.0; PFloat 0.0]) ;;;
       data_info <- on_attr reader "GetDataInformation"
                      (fun r => perform (GetDataInformation r)) ;;
       point_data <- perform (GetPointDataInformation data_info) ;;
       modify (set_data_arrays []) ;;;
       n <- perform (GetNumberOfArrays point_data) ;;
       for_each (py_range n) (fun i =>
         array_info <- perform (GetArrayInformation point_data i) ;;
         array_name <- perform (GetName array_info) ;;
         array_range <- perform (GetComponentRange array_info 0) ;;
         components <- perform (GetNumberOfComponents array_info) ;;
         arrays <- gets data_arrays ;;
         modify (set_data_arrays
                   (arrays ++ [{| da_name := array_name;
                                  da_range := array_range;
                                  da_components := components |}])%list)) ;;;
       on_attr view "ResetCamera" (fun v => perform (ResetCamera v)) ;;;
       v <- gets view ;;
       perform (Render v) ;;;
       arrays <- gets data_arrays ;;
       bounds <- perform (GetBounds data_info) ;;
       points <- perform (GetNumberOfPoints data_info) ;;
       cells <- perform (GetNumberOfCells data_info) ;;
       mret (status_dict "success" "ParaView initialized successfully"
               [("data_arrays", PList (List.map data_array_dict arrays));
                ("bounds", PList (List.map PFloat bounds));
                ("points", PInt points);
                ("cells", PInt cells)])
     else
       mret (status_dict "error" ("VTK file not found: " ++ vtk_file_path) []))%M
    (fun e =>
       mret (status_dict "error" ("Initialization failed: " ++ str_exn e) [])).

(** [apply_color_map], registered as [vtk.apply_color_map] *)
Definition apply_color_map (array_name : string) (color_map_name : string) : M pyval :=
  try_except
    (rep <- gets current_representation ;;
     match rep with
     | None => mret (status_dict "error" "No valid representation or array" [])
     | Some rep =>
         if String.eqb array_name "" then
           mret (status_dict "error" "No valid representation or array" [])
         else
           perform (ColorBy rep "POINTS" array_name) ;;;
           color_tf <- perform (GetColorTransferFunction array_name) ;;
           let preset_name := default "Cool to Warm" (color_map_presets !! color_map_name) in
           perform (ApplyPreset color_tf preset_name true) ;;;
           v <- gets view ;;
           color_bar <- perform (GetScalarBar color_tf v) ;;
           perform (SetAttr color_bar "Visibility" (PInt 1)) ;;;
           perform (SetAttr color_bar "Title" (PStr array_name)) ;;;
           perform (SetAttr color_bar "ComponentTitle" (PStr "")) ;;;
           v <- gets view ;;
           perform (Render v) ;;;
           mret (status_dict "success"
                   ("Applied " ++ color_map_name ++ " color map to " ++ array_name) [])
     end)%M
    (fun e =>
       mret (status_dict "error" ("Color mapping failed: " ++ str_exn e) [])).

(** [generate_contours], registered as [vtk.generate_contours] *)
#[warnings="-inexact-float"] Definition generate_contours (array_name : string) (num_contours : Z) : M pyval :=
  try_except
    (r <- gets reader ;;
     match r with
     | None => mret (status_dict "error" "No valid data or array" [])
     | Some r =>
         if String.eqb array_name "" then
           mret (status_dict "error" "No valid data or array" [])
         else
           c <- perform (Contour r) ;;
           modify (set_contour_filter (Some c)) ;;;
           set_attr contour_filter "ContourBy" (PList [PStr "POINTS"; PStr array_name]) ;;;
           arrays <- gets data_arrays ;;
           match List.find (fun arr => String.eqb (da_name arr) array_name) arrays with
           | None =>
               mret (status_dict "error" ("Array " ++ array_name ++ " not found") [])
           | Some array_info =>
               let '(min_val, max_val) := da_range array_info in
               contour_values <- lift (contour_levels min_val max_val num_contours) ;;
               set_attr contour_filter "Isosurfaces"
                        (PList (List.map PFloat contour_values)) ;;;
               c <- gets contour_filter ;;
               v <- gets view ;;
               contour_rep <- perform (Show c v) ;;
               perform (SetAttr contour_rep "Representation" (PStr "Surface")) ;;;
               perform (SetAttr contour_rep "DiffuseColor"
                                (PList [PFloat 0.0; PFloat 0.0; PFloat 1.0])) ;;;
               perform (SetAttr contour_rep "Opacity" (PFloat 0.7)) ;;;
               v <- gets view ;;
               perform (Render v) ;;;
               mret (status_dict "success"
                       ("Generated " ++ string_of_Z num_contours ++ " contours")
                       [("contour_values", PList (List.map PFloat contour_values))])
           end
     end)%M
    (fun e =>
       mret (status_dict "error" ("Contour generation failed: " ++ str_exn e) [])).

(** [export_image], registered as [vtk.export_image] *)
Definition export_image (filename : string) (width height : Z) : M pyval :=
  try_except
    (v <- gets view ;;
     match v with
     | None => mret (status_dict "error" "No valid view" [])
     | Some _ =>
         set_attr view "ViewSize" (PList [PInt width; PInt height]) ;;;
         v <- gets view ;;
         perform (SaveScreenshot filename v [width; height]) ;;;
         mret (status_dict "success" ("Image exported: " ++ filename)
                 [("filename", PStr filename)])
     end)%M
    (fun e =>
       mret (status_dict "error" ("Image export failed: " ++ str_exn e) [])).

End WithEngine.

End Server.


(* ================================================================= *)
(** ** Sample engines, protocol states and messages for the examples *)

Module Samples.
Import Py Server.

(** An engine holding a data set with two point arrays; every call
    succeeds. *)
Definition dataset_engine : engine_t :=
  fun _ c =>
    match c return result (ret_type c) with
    | CreateView _ => ret 1%nat
    | LegacyVTKReader _ => ret 2%nat
    | Show _ _ => ret 3%nat
    | GetDataInformation _ => ret 4%nat
    | GetPointDataInformation _ => ret 5%nat
    | GetArrayInformation _ i => ret (100 + Z.to_nat i)%nat
    | GetColorTransferFunction _ => ret 6%nat
    | GetScalarBar _ _ => ret 7%nat
    | Contour _ => ret 8%nat
    | SetAttr _ _ _ | ResetCamera _ | Render _ | ColorBy _ _ _
    | ApplyPreset _ _ _ | SaveScreenshot _ _ _ => ret tt
    | PathExists _ => ret true
    | GetNumberOfArrays _ => ret 2
    | GetNumberOfComponents _ => ret 1
    | GetNumberOfPoints _ => ret 1234
    | GetNumberOfCells _ => ret 987
    | GetName a => ret (if Nat.eqb a 100 then "Temperature" else "Pressure")
    | GetComponentRange a _ =>
        ret (if Nat.eqb a 100 then (0, 1) else (1e16, 10000000000000002))%float
    | GetBounds _ => ret [0; 1; 0; 1; 0; 1]%float
    end.

(** An engine on which every call raises. *)
Definition broken_engine : engine_t :=
  fun _ c => raise (Exn "RuntimeError" "engine unavailable").

(** The protocol object once [vtk.initialize] has run on [dataset_engine]. *)
Definition loaded : VtkVisualizationProtocol := {|
  view := Some 1%nat;
  reader := Some 2%nat;
  current_representation := Some 3%nat;
  contour_filter := None;
  volume_representation := None;
  data_arrays := [ {| da_name := "Temperature"; da_range := (0, 1)%float;
                      da_components := 1 |};
                   {| da_name := "Pressure";
                      da_range := (1e16, 10000000000000002)%float;
                      da_components := 1 |} ];
  color_map := None
|}.

Definition msg_unknown_method : string :=
  RefCodec.dq "{'id': 1, 'method': 'foo'}".
Definition msg_export_image : string :=
  RefCodec.dq "{'id': 2, 'method': 'vtk.export_image', 'params': {'filename': 'a.png'}}".
Definition msg_color_temperature : string :=
  RefCodec.dq "{'id': 3, 'method': 'vtk.apply_color_map', 'params': {'array_name': 'Temperature'}}".
Definition msg_color_pressure : string :=
  RefCodec.dq "{'id': 3, 'method': 'vtk.apply_color_map', 'params': {'array_name': 'Pressure'}}".
Definition msg_color_bad_params : string :=
  RefCodec.dq "{'id': 4, 'method': 'vtk.apply_color_map', 'params': 5}".
Definition msg_color_temperature_again : string :=
  RefCodec.dq "{'method': 'vtk.apply_color_map', 'id': 9, 'params': {'color_map_name': 'Jet', 'array_name': 'Temperature'}}".
Definition msg_initialize : string :=
  RefCodec.dq "{'id': 7, 'method': 'vtk.initialize'}".
Definition msg_not_json : string := "not json".
Definition msg_array : string := "[1, 2]".

(** What [generate_contours('Temperature', 9)] returns on [loaded]. *)
#[warnings="-inexact-float"] Definition levels_temperature_9 : list float :=
  [0.1; 0.2; 0.30000000000000004; 0.4; 0.5; 0.6000000000000001; 0.7000000000000001;
   0.8; 0.9]%float.

Definition reply_temperature_9 : pyval :=
  status_dict "success" "Generated 9 contours"
    [("contour_values", PList (List.map PFloat levels_temperature_9))].

(** What [generate_contours('Pressure', 1)] returns on [loaded]. *)
Definition reply_pressure_1 : pyval :=
  status_dict "success" "Generated 1 contours"
    [("contour_values", PList [PFloat 1e16])].

End Samples.


(* ================================================================= *)
(** ** Vocabulary of the specification *)

Module Spec.
Import Py Server.

(** The four method names of the RPC surface. *)
Definition rpc_surface : list string :=
  ["vtk.initialize"; "vtk.apply_color_map"; "vtk.generate_contours"; "vtk.export_image"].

(** The method names the mock treats in a branch of their own. *)
Definition mock_branches : list string :=
  ["vtk.initialize"; "vtk.apply_color_map"; "vtk.generate_contours"].

Definition field (key : string) (v : json) : option json :=
  match v with
  | JDict items => assoc key items
  | _ => None
  end.

(** [d.get(key, default)] on the items of a dict *)
Definition get_or (key : string) (default : json) (items : list (string * json)) : json :=
  match assoc key items with
  | Some x => x
  | None => default
  end.

Definition has_str_field (key : string) (v : json) : bool :=
  match field key v with
  | Some (JStr _) => true
  | _ => false
  end.

(** The schema of a response of the mock: an object with an [id] and
    either a [result] (with string fields [status] and [message]) or an
    [error] (with a string field [message]), not both. *)
Definition matches_schema (v : json) : bool :=
  match v with
  | JDict _ =>
      match field "id" v, field "result" v, field "error" v with
      | Some _, Some r, None =>
          match r with
          | JDict _ => has_str_field "status" r && has_str_field "message" r
          | _ => false
          end
      | Some _, None, Some e =>
          match e with
          | JDict _ => has_str_field "message" e
          | _ => false
          end
      | _, _, _ => false
      end
  | _ => false
  end.

(** [params.array_name] as the [vtk.apply_color_map] branch reads it. *)
Definition array_name_of (items : list (string * json)) : result json :=
  (params <- py_get (JDict items) "params" (JDict []) ;;
   py_get params "array_name" (JStr "unknown"))%py.

Definition pfield (key : string) (v : pyval) : option pyval :=
  match v with
  | PDict items => assoc key items
  | _ => None
  end.

(** A handler's reply: a dict whose [status] is ['success'] or ['error']
    and which has a [message]. *)
Definition is_reply (v : pyval) : bool :=
  match pfield "status" v, pfield "message" v with
  | Some (PStr s), Some _ => String.eqb s "success" || String.eqb s "error"
  | _, _ => false
  end.

Definition is_success (v : pyval) : bool :=
  match pfield "status" v with
  | Some (PStr s) => String.eqb s "success"
  | _ => false
  end.

(** An engine on which no call raises. *)
Definition never_raises (engine : engine_t) : Prop :=
  forall log c, exists a, engine log c = inr a.

(** On a run of [m] from [s], whatever is returned satisfies [Q]. *)
Definition returns {A} (m : M A) (Q : A -> Prop) : Prop :=
  forall s, match fst (m s) with
            | inr a => Q a
            | inl _ => True
            end.

(** [Q] holds of the outcome of [m] run from [s] and of the state it leaves. *)
Definition wp {A} (m : M A) (Q : result A -> state -> Prop)
           (s : state) : Prop :=
  Q (fst (m s)) (snd (m s)).

(** The keys of [color_map_presets]. *)
Definition preset_keys : list string :=
  ["Cool to Warm"; "Blue to Red Rainbow"; "Viridis"; "Plasma"; "Inferno"; "Hot"; "Jet";
   "Grayscale"].

(** What a run of [apply_color_map] does when it falls back: it returns a
    reply; every preset it applies is ['Cool to Warm']; a success reply
    comes with that preset applied and names the colour map asked for;
    and the run succeeds whenever the guard passes and the engine does not
    raise. *)
Definition falls_back (engine : engine_t) (array_name color_map_name : string)
           (self : VtkVisualizationProtocol) (log : list call) : Prop :=
  exists reply self' calls,
    apply_color_map engine array_name color_map_name (self, log)
    = (inr reply, (self', (log ++ calls)%list))
    /\ (forall tf preset rescale,
          In (ApplyPreset tf preset rescale) calls -> preset = "Cool to Warm")
    /\ (is_success reply = true ->
        (exists tf, In (ApplyPreset tf "Cool to Warm" true) calls)
        /\ pfield "message" reply
           = Some (PStr ("Applied " ++ color_map_name
                                ++ " color map to " ++ array_name)))
    /\ (never_raises engine ->
        current_representation self <> None -> array_name <> "" ->
        is_success reply = true).

(** The reply carries [n] levels, the i-th one the binary64 value of
    [min_val + step * (i + 1)], where [step] is the binary64 value of
    [(max_val - min_val) / (n + 1)]. *)
Definition binary64_levels (min_val max_val : float) (n : Z) (reply : pyval) : Prop :=
  exists values divisor step,
    pfield "contour_values" reply = Some (PList (List.map PFloat values))
    /\ List.length values = Z.to_nat n
    /\ int_to_float (n + 1) = inr divisor
    /\ float_div (PrimFloat.sub max_val min_val) divisor = inr step
    /\ forall i, (0 <= i < n)%Z ->
         exists k, int_to_float (i + 1) = inr k
                   /\ nth_error values (Z.to_nat i)
                      = Some (PrimFloat.add min_val (PrimFloat.mul step k)).

(** The same computation on exact rationals gives [n] levels, the i-th
    one equal to [min_val + (max_val - min_val) * (i + 1) / (n + 1)] and,
    when [min_val < max_val], strictly between the two. *)
Definition exact_levels (n : Z) : Prop :=
  forall min_val max_val : Q,
  exists values,
    contour_levels min_val max_val n = inr values
    /\ List.length values = Z.to_nat n
    /\ forall i, (0 <= i < n)%Z ->
         exists q, nth_error values (Z.to_nat i) = Some q
           /\ (q == min_val + (max_val - min_val) * inject_Z (i + 1) / inject_Z (n + 1))%Q
           /\ ((min_val < max_val)%Q -> (min_val < q)%Q /\ (q < max_val)%Q).

End Spec.


(* ================================================================= *)
(** ** The mock server *)

Section MockFacts.
Import Py Mock Spec.

Variable json_loads : string -> result json.
Variable json_dumps : json -> string.
Variable py_repr : json -> string.

Local Abbreviation process_message :=
  (Mock.process_message json_loads json_dumps py_repr).
Local Abbreviation serve := (Mock.serve json_loads json_dumps py_repr).
Local Abbreviation handle_client := (Mock.handle_client json_loads json_dumps py_repr).

Lemma process_message_keeps_self (self : MockParaViewServer) (message : string) :
  snd (process_message self message) = self.
Proof.
  unfold Mock.process_message.
  destruct (bind _ _); reflexivity.
Qed.

Lemma process_message_ignores_self (self1 self2 : MockParaViewServer) (message : string) :
  fst (process_message self1 message) = fst (process_message self2 message).
Proof.
  unfold Mock.process_message.
  destruct (bind _ _); reflexivity.
Qed.

(** When decoding raises, the [except] clause raises in turn. *)
Lemma process_message_undecodable self message e :
  json_loads message = inl e ->
  process_message self message = (inl (UnboundLocalError "data"), self).
Proof.
  intros Hloads. unfold Mock.process_message. rewrite Hloads. reflexivity.
Qed.

(** When the decoded value is not a dict, [data.get] raises in the [try]
    body and again in the [except] clause. *)
Lemma process_message_not_a_dict self message v :
  json_loads message = inr v ->
  (forall items, v <> JDict items) ->
  process_message self message = (inl (AttributeError (type_name v) "get"), self).
Proof.
  intros Hloads Hv. unfold Mock.process_message. rewrite Hloads.
  destruct v; try reflexivity.
  now contradiction (Hv items).
Qed.

(** The branches of the dispatcher, for a message that decodes to a dict. *)
Lemma process_message_initialize self message items :
  json_loads message = inr (JDict items) ->
  get_or "method" (JStr "") items = JStr "vtk.initialize" ->
  process_message self message =
    (inr (json_dumps (success_response (get_or "id" JNull items)
       [("status", JStr "success");
        ("message", JStr "Mock ParaView initialized");
        ("data_arrays", JList [JStr "Temperature"; JStr "Pressure"; JStr "Velocity"]);
        ("bounds", JList [JInt (-100); JInt 100; JInt (-50); JInt 50; JInt (-75); JInt 75]);
        ("points", JInt 1234567);
        ("cells", JInt 987654)])), self).
Proof.
  intros Hloads Hm. unfold Mock.process_message, get_or in *.
  rewrite Hloads. cbn [bind py_get ret]. rewrite Hm. reflexivity.
Qed.

Lemma process_message_generate_contours self message items :
  json_loads message = inr (JDict items) ->
  get_or "method" (JStr "") items = JStr "vtk.generate_contours" ->
  process_message self message =
    (inr (json_dumps (success_response (get_or "id" JNull items)
       [("status", JStr "success");
        ("message", JStr "Generated 5 contours");
        ("contour_values", JList [JInt 10; JInt 20; JInt 30; JInt 40; JInt 50])])), self).
Proof.
  intros Hloads Hm. unfold Mock.process_message, get_or in *.
  rewrite Hloads. cbn [bind py_get ret]. rewrite Hm. reflexivity.
Qed.

Lemma process_message_apply_color_map self message items :
  json_loads message = inr (JDict items) ->
  get_or "method" (JStr "") items = JStr "vtk.apply_color_map" ->
  process_message self message =
    (match array_name_of items with
     | inr array_name =>
         inr (json_dumps (success_response (get_or "id" JNull items)
           [("status", JStr "success");
            ("message", JStr ("Applied color map to " ++ py_str py_repr array_name))]))
     | inl e =>
         inr (json_dumps (JDict [("id", get_or "id" (JInt 0) items);
                                 ("error", JDict [("message", JStr (str_exn e))])]))
     end, self).
Proof.
  intros Hloads Hm. unfold Mock.process_message, array_name_of, get_or in *.
  rewrite Hloads. cbn [bind py_get ret]. rewrite Hm. cbn [py_eq_str String.eqb Ascii.eqb Bool.eqb].
  destruct (py_get _ "array_name" _); reflexivity.
Qed.

Lemma process_message_otherwise self message items :
  json_loads message = inr (JDict items) ->
  (forall name, In name mock_branches -> get_or "method" (JStr "") items <> JStr name) ->
  process_message self message =
    (inr (json_dumps (success_response (get_or "id" JNull items)
       [("status", JStr "success");
        ("message", JStr ("Mock response for "
                          ++ py_str py_repr (get_or "method" (JStr "") items)))])), self).
Proof.
  intros Hloads Hm. unfold Mock.process_message, get_or in *.
  rewrite Hloads. cbn [bind py_get ret].
  assert (Hneq : forall name, In name mock_branches ->
            py_eq_str match assoc "method" items with
                      | Some x => x
                      | None => JStr ""
                      end name = false).
  { intros name Hin. specialize (Hm name Hin).
    destruct (match assoc "method" items with Some x => x | None => JStr "" end);
      try reflexivity.
    cbn [py_eq_str]. apply String.eqb_neq. congruence. }
  rewrite !Hneq by (cbn; tauto).
  reflexivity.
Qed.

Lemma method_cases (items : list (string * json)) :
  get_or "method" (JStr "") items = JStr "vtk.initialize"
  \/ get_or "method" (JStr "") items = JStr "vtk.apply_color_map"
  \/ get_or "method" (JStr "") items = JStr "vtk.generate_contours"
  \/ (forall name, In name mock_branches -> get_or "method" (JStr "") items <> JStr name).
Proof.
  destruct (get_or "method" (JStr "") items) as [| | | |s| |];
    try (right; right; right; intros name _; discriminate).
  destruct (String.eqb_spec s "vtk.initialize") as [->|H1]; [now left|].
  destruct (String.eqb_spec s "vtk.apply_color_map") as [->|H2]; [now right; left|].
  destruct (String.eqb_spec s "vtk.generate_contours") as [->|H3]; [now right; right; left|].
  right; right; right. intros name [<-|[<-|[<-|[]]]]; congruence.
Qed.

(** Every response that [process_message] returns, by the branch taken. *)
Lemma process_message_returns self message response self' :
  process_message self message = (inr response, self') ->
  exists items,
    json_loads message = inr (JDict items)
    /\ ((exists result,
           response = json_dumps (success_response (get_or "id" JNull items) result)
           /\ has_str_field "status" (JDict result) = true
           /\ has_str_field "message" (JDict result) = true)
        \/ (exists e,
              response = json_dumps (JDict [("id", get_or "id" (JInt 0) items);
                                            ("error", JDict [("message", JStr (str_exn e))])]))).
Proof.
  intros Hrun.
  destruct (json_loads message) as [e|v] eqn:Hloads.
  { rewrite (process_message_undecodable _ _ _ Hloads) in Hrun. discriminate. }
  destruct v as [| | | | | |items];
    try (rewrite (process_message_not_a_dict _ _ _ Hloads) in Hrun by discriminate;
         discriminate).
  exists items. split; [reflexivity|].
  destruct (method_cases items) as [Hm|[Hm|[Hm|Hm]]].
  - rewrite (process_message_initialize _ _ _ Hloads Hm) in Hrun.
    injection Hrun as <- _. left. eexists. split; [reflexivity|]. split; reflexivity.
  - rewrite (process_message_apply_color_map _ _ _ Hloads Hm) in Hrun.
    destruct (array_name_of items) as [e|a]; injection Hrun as <- _.
    + right. now exists e.
    + left. eexists. split; [reflexivity|]. split; reflexivity.
  - rewrite (process_message_generate_contours _ _ _ Hloads Hm) in Hrun.
    injection Hrun as <- _. left. eexists. split; [reflexivity|]. split; reflexivity.
  - rewrite (process_message_otherwise _ _ _ Hloads Hm) in Hrun.
    injection Hrun as <- _. left. eexists. split; [reflexivity|]. split; reflexivity.
Qed.

(** What the message loop sends is the answer to each message taken alone. *)
Lemma serve_answers self inbox :
  Forall2 (fun message response =>
             forall self0, fst (process_message self0 message) = inr response)
          (firstn (List.length (fst (fst (serve self inbox)))) (List.map fst inbox))
          (fst (fst (serve self inbox))).
Proof.
  revert self. induction inbox as [|[message send] rest IH]; intros self; cbn.
  - constructor.
  - destruct (process_message self message) as [[e|response] self1] eqn:Hrun; cbn.
    + constructor.
    + destruct send as [e|[]]; cbn; [constructor|].
      specialize (IH self1).
      destruct (serve self1 rest) as [[sent raised] self2]. cbn in *.
      constructor; [|exact IH].
      intros self0. rewrite (process_message_ignores_self self0 self), Hrun. reflexivity.
Qed.

(** C2 (as the code behaves): a message that [json.loads] rejects, or that
    decodes to something other than an object, gets no error response:
    the [except] clause reads [data] and raises itself, and the exception
    leaves [process_message]. *)
Theorem process_message_propagates self message :
  (forall e, json_loads message = inl e ->
             fst (process_message self message) = inl (UnboundLocalError "data"))
  /\ (forall v, json_loads message = inr v -> (forall items, v <> JDict items) ->
                fst (process_message self message)
                = inl (AttributeError (type_name v) "get")).
Proof.
  split.
  - intros e H. now rewrite (process_message_undecodable _ _ _ H).
  - intros v H Hv. now rewrite (process_message_not_a_dict _ _ _ H Hv).
Qed.

(** C3: every response the mock returns carries the request's [id]: in a
    success response the value of [data.get('id')] ([null] when the
    request has none), in an error response that of [data.get('id', 0)]. *)
Theorem response_echoes_id self message response self' :
  process_message self message = (inr response, self') ->
  exists items d,
    json_loads message = inr (JDict items)
    /\ response = json_dumps d
    /\ ((field "result" d <> None /\ field "error" d = None
         /\ field "id" d = Some (get_or "id" JNull items))
        \/ (field "error" d <> None /\ field "result" d = None
            /\ field "id" d = Some (get_or "id" (JInt 0) items))).
Proof.
  intros Hrun.
  destruct (process_message_returns _ _ _ _ Hrun) as (items & Hloads & [H|H]).
  - destruct H as (result & -> & _). exists items. eexists.
    split; [exact Hloads|]. split; [reflexivity|].
    left. cbn. repeat split; congruence.
  - destruct H as (e & ->). exists items. eexists.
    split; [exact Hloads|]. split; [reflexivity|].
    right. cbn. repeat split; congruence.
Qed.

(** C6: the response is a function of the message alone.  It does not
    depend on the server object, [process_message] leaves that object as
    it was, and within a connection every response sent is the one the
    message would get on any server, whatever was processed before. *)
Theorem process_message_stateless :
  (forall self1 self2 message,
      fst (process_message self1 message) = fst (process_message self2 message))
  /\ (forall self message, snd (process_message self message) = self)
  /\ (forall self ws inbox,
         Forall2 (fun message response =>
                    forall self0, fst (process_message self0 message) = inr response)
                 (firstn (List.length (fst (fst (handle_client self ws inbox))))
                         (List.map fst inbox))
                 (fst (fst (handle_client self ws inbox)))).
Proof.
  split; [exact process_message_ignores_self|].
  split; [exact process_message_keeps_self|].
  intros self ws inbox. unfold Mock.handle_client.
  pose proof (serve_answers {| connected_clients := connected_clients self ∪ {[ws]} |}
                            inbox) as H.
  destruct (serve _ inbox) as [[sent raised] self2]. exact H.
Qed.

(** C7: every response the mock returns is the encoding of an object
    that matches the response schema. *)
Theorem response_matches_schema self message response self' :
  process_message self message = (inr response, self') ->
  exists d, response = json_dumps d /\ matches_schema d = true.
Proof.
  intros Hrun.
  destruct (process_message_returns _ _ _ _ Hrun) as (items & Hloads & [H|H]).
  - destruct H as (result & -> & Hstatus & Hmessage). eexists. split; [reflexivity|].
    cbn. cbn in Hstatus, Hmessage. unfold has_str_field, field in *.
    now rewrite Hstatus, Hmessage.
  - destruct H as (e & ->). eexists. split; reflexivity.
Qed.

(** C5 (as the code behaves): the result payload is fixed by the method
    value, except in the [vtk.apply_color_map] branch, whose message
    embeds [params.array_name].  Two requests with the same method get the
    same result payload, whatever their ids and params, provided that for
    [vtk.apply_color_map] their params carry the same [array_name]. *)
Theorem result_payload_per_method self1 self2 message1 message2 items1 items2 :
  json_loads message1 = inr (JDict items1) ->
  json_loads message2 = inr (JDict items2) ->
  get_or "method" (JStr "") items1 = get_or "method" (JStr "") items2 ->
  (get_or "method" (JStr "") items1 <> JStr "vtk.apply_color_map"
   \/ exists a, array_name_of items1 = inr a /\ array_name_of items2 = inr a) ->
  exists result,
    fst (process_message self1 message1)
    = inr (json_dumps (success_response (get_or "id" JNull items1) result))
    /\ fst (process_message self2 message2)
       = inr (json_dumps (success_response (get_or "id" JNull items2) result)).
Proof.
  intros Hl1 Hl2 Hsame Hparams.
  destruct (method_cases items1) as [Hm|[Hm|[Hm|Hm]]].
  - rewrite (process_message_initialize _ _ _ Hl1 Hm).
    rewrite Hsame in Hm. rewrite (process_message_initialize _ _ _ Hl2 Hm).
    eexists; split; reflexivity.
  - destruct Hparams as [Hne|(a & Ha1 & Ha2)]; [congruence|].
    rewrite (process_message_apply_color_map _ _ _ Hl1 Hm), Ha1.
    rewrite Hsame in Hm. rewrite (process_message_apply_color_map _ _ _ Hl2 Hm), Ha2.
    eexists; split; reflexivity.
  - rewrite (process_message_generate_contours _ _ _ Hl1 Hm).
    rewrite Hsame in Hm. rewrite (process_message_generate_contours _ _ _ Hl2 Hm).
    eexists; split; reflexivity.
  - rewrite (process_message_otherwise _ _ _ Hl1 Hm).
    rewrite Hsame in Hm. rewrite (process_message_otherwise _ _ _ Hl2 Hm).
    rewrite Hsame. eexists; split; reflexivity.
Qed.

End MockFacts.


(* ================================================================= *)
(** ** The protocol handlers *)

Section HandlerLogic.
Import Py Server Spec.

Lemma returns_ret {A} (a : A) (Q : A -> Prop) : Q a -> returns (mret a) Q.
Proof. intros HQ s. exact HQ. Qed.

Lemma returns_raise {A} (e : exn) (Q : A -> Prop) : returns (mraise e) Q.
Proof. intros s. exact I. Qed.

Lemma returns_bind {A B} (m : M A) (k : A -> M B) (Q : B -> Prop) :
  (forall a, returns (k a) Q) -> returns (mbind m k) Q.
Proof.
  intros Hk s. unfold mbind.
  destruct (m s) as [[e|a] s1]; [exact I|]. apply Hk.
Qed.

(** A [try] whose body can only return replies and whose [except] clause
    returns a reply never lets an exception out. *)
Lemma try_except_replies (body : M pyval) (handler : exn -> M pyval) :
  returns body (fun reply => is_reply reply = true) ->
  (forall e s, exists reply, handler e s = (inr reply, s) /\ is_reply reply = true) ->
  forall s, exists reply s',
      try_except body handler s = (inr reply, s') /\ is_reply reply = true.
Proof.
  intros Hbody Hhandler s. unfold try_except.
  specialize (Hbody s).
  destruct (body s) as [[e|reply] s1]; cbn in Hbody.
  - destruct (Hhandler e s1) as (reply & -> & Hreply). now exists reply, s1.
  - now exists reply, s1.
Qed.

Lemma wp_ret {A} (a : A) (Q : result A -> state -> Prop) s :
  Q (inr a) s -> wp (mret a) Q s.
Proof. exact id. Qed.

Lemma wp_raise {A} (e : exn) (Q : result A -> state -> Prop) s :
  Q (inl e) s -> wp (mraise e) Q s.
Proof. exact id. Qed.

Lemma wp_lift {A} (r : result A) (Q : result A -> state -> Prop) s :
  Q r s -> wp (lift r) Q s.
Proof. exact id. Qed.

Lemma wp_gets {A} (field : VtkVisualizationProtocol -> A) (Q : result A -> state -> Prop) s :
  Q (inr (field (fst s))) s -> wp (gets field) Q s.
Proof. exact id. Qed.

Lemma wp_modify f (Q : result unit -> state -> Prop) s :
  Q (inr tt) (f (fst s), snd s) -> wp (modify f) Q s.
Proof. exact id. Qed.

Lemma wp_perform engine c (Q : result (ret_type c) -> state -> Prop) s :
  Q (engine (snd s) c) (fst s, (snd s ++ [c])%list) -> wp (perform engine c) Q s.
Proof. exact id. Qed.

Lemma wp_bind {A B} (m : M A) (k : A -> M B) (Q : result B -> state -> Prop) s :
  wp m (fun r s' => match r with
                    | inl e => Q (inl e) s'
                    | inr a => wp (k a) Q s'
                    end) s ->
  wp (mbind m k) Q s.
Proof.
  unfold wp, mbind. destruct (m s) as [[e|a] s']; exact id.
Qed.

Lemma wp_try_except {A} (body : M A) (handler : exn -> M A)
      (Q : result A -> state -> Prop) s :
  wp body (fun r s' => match r with
                       | inl e => wp (handler e) Q s'
                       | inr a => Q (inr a) s'
                       end) s ->
  wp (try_except body handler) Q s.
Proof.
  unfold wp, try_except. destruct (body s) as [[e|a] s']; exact id.
Qed.

Lemma preset_lookup_unknown (name : string) :
  ~ In name preset_keys -> color_map_presets !! name = None.
Proof.
  intros Hnot. unfold color_map_presets.
  apply not_elem_of_list_to_map_1. rewrite list_elem_of_In. exact Hnot.
Qed.

(** The keys listed in the specification are the keys of the dict. *)
Lemma preset_keys_domain (name : string) :
  In name preset_keys <-> color_map_presets !! name <> None.
Proof.
  split.
  - intros [<-|[<-|[<-|[<-|[<-|[<-|[<-|[<-|[]]]]]]]]]; vm_compute; discriminate.
  - intros Hsome. destruct (in_dec string_dec name preset_keys) as [Hin|Hnot]; [exact Hin|].
    now apply preset_lookup_unknown in Hnot.
Qed.

(** A level in exact arithmetic, for the [K]-th of [N - 1] levels. *)
Lemma level_between (lo hi K N : Q) :
  (0 < K)%Q -> (K < N)%Q ->
  (lo + (hi - lo) / N * K == lo + (hi - lo) * K / N)%Q
  /\ ((lo < hi)%Q -> (lo < lo + (hi - lo) / N * K)%Q /\ (lo + (hi - lo) / N * K < hi)%Q).
Proof.
  intros HK HKN.
  assert (HN : (0 < N)%Q) by lra.
  assert (Ht0 : (0 < K / N)%Q) by (apply Qlt_shift_div_l; lra).
  assert (Ht1 : (K / N < 1)%Q) by (apply Qlt_shift_div_r; lra).
  assert (Heq : (lo + (hi - lo) / N * K == lo + (hi - lo) * (K / N))%Q).
  { field. lra. }
  split.
  - field. lra.
  - intros Hlt. rewrite Heq. split; nra.
Qed.

End HandlerLogic.

Ltac returns_step :=
  lazymatch goal with
  | |- Spec.returns (Server.mret _) _ => apply returns_ret; reflexivity
  | |- Spec.returns (Server.mraise _) _ => apply returns_raise
  | |- Spec.returns (Server.mbind _ _) _ => apply returns_bind; intros
  | |- Spec.returns (let _ := _ in _) _ => cbv zeta
  | |- Spec.returns (if ?b then _ else _) _ => destruct b
  | |- Spec.returns (match ?x with _ => _ end) _ => destruct x
  end.

Section ContourLevels.
Import Py Server Spec.

Lemma comprehension_inr {A B} (f : A -> result B) (l : list A) (bs : list B) :
  comprehension f l = inr bs -> Forall2 (fun a b => f a = inr b) l bs.
Proof.
  revert bs. induction l as [|a rest IH]; intros bs Hrun; cbn in Hrun.
  - injection Hrun as <-. constructor.
  - destruct (f a) as [e|b] eqn:Hfa; [discriminate|]. cbn in Hrun.
    destruct (comprehension f rest) as [e|bs'] eqn:Hrest; [discriminate|].
    cbn in Hrun. injection Hrun as <-. constructor; auto.
Qed.

Lemma comprehension_total {A B} (f : A -> result B) (g : A -> B) (l : list A) :
  (forall a, In a l -> f a = inr (g a)) -> comprehension f l = inr (List.map g l).
Proof.
  induction l as [|a rest IH]; intros Hf; cbn.
  - reflexivity.
  - rewrite (Hf a) by now left. cbn. rewrite IH by (intros; apply Hf; now right).
    reflexivity.
Qed.

Lemma Forall2_nth_error {A B} (P : A -> B -> Prop) (l : list A) (k : list B) :
  Forall2 P l k ->
  List.length l = List.length k
  /\ forall i a, nth_error l i = Some a -> exists b, nth_error k i = Some b /\ P a b.
Proof.
  induction 1 as [|a b l k Hab _ [IHlen IHnth]]; split; cbn.
  - reflexivity.
  - intros [|i] a; discriminate.
  - now f_equal.
  - intros [|i] a' Hi; cbn in *.
    + injection Hi as <-. now exists b.
    + now apply IHnth.
Qed.

Lemma py_range_length (n : Z) : List.length (py_range n) = Z.to_nat n.
Proof. unfold py_range. now rewrite length_map, length_seq. Qed.

Lemma py_range_nth (n i : Z) :
  (0 <= i < n)%Z -> nth_error (py_range n) (Z.to_nat i) = Some i.
Proof.
  intros Hi. unfold py_range.
  rewrite nth_error_map, nth_error_seq.
  destruct (Nat.ltb_spec (Z.to_nat i) (Z.to_nat n)) as [_|Hge]; [|lia].
  cbn. f_equal. lia.
Qed.

(** The levels, in whatever arithmetic: as many as asked for, the i-th
    one [min_val + step * (i + 1)] with [step] the quotient of the range
    by [num_contours + 1]. *)
Lemma contour_levels_inr {R} `{Number R} (min_val max_val : R) (n : Z) (values : list R) :
  contour_levels min_val max_val n = inr values ->
  exists divisor step,
    num_of_int (n + 1) = inr divisor
    /\ num_div (num_sub max_val min_val) divisor = inr step
    /\ List.length values = Z.to_nat n
    /\ forall i, (0 <= i < n)%Z ->
         exists k, num_of_int (i + 1) = inr k
                   /\ nth_error values (Z.to_nat i)
                      = Some (num_add min_val (num_mul step k)).
Proof.
  unfold contour_levels. intros Hrun.
  destruct (num_of_int (n + 1)) as [e|divisor] eqn:Hdivisor; [discriminate|].
  cbn in Hrun.
  destruct (num_div _ divisor) as [e|step] eqn:Hstep; [discriminate|]. cbn in Hrun.
  apply comprehension_inr in Hrun.
  exists divisor, step. split; [reflexivity|]. split; [exact Hstep|]. split.
  - rewrite <- (proj1 (Forall2_nth_error _ _ _ Hrun)). apply py_range_length.
  - intros i Hi.
    pose proof (py_range_nth n i Hi) as Hnth.
    destruct (proj2 (Forall2_nth_error _ _ _ Hrun) _ _ Hnth) as (v & Hv & Hf).
    destruct (num_of_int (i + 1)) as [e|k]; [discriminate|]. cbn in Hf.
    injection Hf as <-. now exists k.
Qed.

Lemma contour_levels_exact (n : Z) : (1 <= n)%Z -> exact_levels n.
Proof.
  intros Hn min_val max_val.
  set (step := ((max_val - min_val) / inject_Z (n + 1))%Q).
  exists (List.map (fun i => (min_val + step * inject_Z (i + 1))%Q) (py_range n)).
  split; [|split].
  - unfold contour_levels. cbn.
    destruct (Qeq_bool (inject_Z (n + 1)) (0 # 1)) eqn:Hz.
    { apply Qeq_bool_eq in Hz.
      assert (0 < inject_Z (n + 1))%Q by (rewrite <- (Zlt_Qlt 0); lia). lra. }
    cbn. now apply comprehension_total.
  - rewrite length_map. apply py_range_length.
  - intros i Hi. eexists. split.
    { rewrite nth_error_map, (py_range_nth n i Hi). reflexivity. }
    assert (HK : (0 < inject_Z (i + 1))%Q) by (rewrite <- (Zlt_Qlt 0); lia).
    assert (HKN : (inject_Z (i + 1) < inject_Z (n + 1))%Q) by (rewrite <- Zlt_Qlt; lia).
    destruct (level_between min_val max_val _ _ HK HKN) as [Heq Hbetween].
    unfold step. split; [exact Heq|exact Hbetween].
Qed.

End ContourLevels.

(** One step through handler code: the head construct is replaced by its
    rule, a call by the two cases of the engine's answer. *)
Ltac wp_step engine :=
  lazymatch goal with
  | |- Spec.wp (Server.mbind _ _) _ _ => apply wp_bind
  | |- Spec.wp (Server.mret _) _ _ => apply wp_ret
  | |- Spec.wp (Server.mraise _) _ _ => apply wp_raise
  | |- Spec.wp (Server.gets _) _ _ => apply wp_gets
  | |- Spec.wp (Server.modify _) _ _ => apply wp_modify
  | |- Spec.wp (Server.lift ?r) _ _ => apply wp_lift; destruct r eqn:?
  | |- Spec.wp (Server.perform _ ?c) _ _ =>
      apply (wp_perform engine c); cbn [fst snd];
      match goal with
      | |- context [engine ?l c] => destruct (engine l c) eqn:?
      end
  | |- Spec.wp (Server.set_attr _ _ _ _) _ _ => unfold Server.set_attr
  | |- Spec.wp (Server.try_except _ _) _ _ => apply wp_try_except
  | |- Spec.wp (if ?b then _ else _) _ _ => destruct b eqn:?
  | |- Spec.wp (match ?x with _ => _ end) _ _ => destruct x eqn:?
  end;
  cbn [fst snd Server.view Server.reader Server.current_representation
       Server.contour_filter Server.data_arrays Server.set_view Server.set_reader
       Server.set_current_representation Server.set_contour_filter
       Server.set_data_arrays].

Section HandlerFacts.
Import Py Server Spec.

Variable engine : engine_t.

(** C4: each of the four registered handlers returns, from any state of
    the protocol object and whatever the engine does, a dict with a
    [status] of ['success'] or ['error'] and a [message]; no exception
    leaves a handler. *)
Theorem handlers_return_replies (s : state) :
  (exists reply s',
      initialize_visualization engine s = (inr reply, s') /\ is_reply reply = true)
  /\ (forall array_name color_map_name, exists reply s',
         apply_color_map engine array_name color_map_name s = (inr reply, s')
         /\ is_reply reply = true)
  /\ (forall array_name num_contours, exists reply s',
         generate_contours engine array_name num_contours s = (inr reply, s')
         /\ is_reply reply = true)
  /\ (forall filename width height, exists reply s',
         export_image engine filename width height s = (inr reply, s')
         /\ is_reply reply = true).
Proof.
  repeat split; intros;
    apply try_except_replies;
    try (intros e s0; eexists; split; reflexivity);
    repeat returns_step.
Qed.

(** A success reply of [generate_contours] comes from the last [return]:
    the array was found and its levels were computed. *)
Lemma generate_contours_success array_name n self log reply :
  fst (generate_contours engine array_name n (self, log)) = inr reply ->
  is_success reply = true ->
  exists array_info values,
    List.find (fun arr => String.eqb (da_name arr) array_name) (data_arrays self)
    = Some array_info
    /\ contour_levels (fst (da_range array_info)) (snd (da_range array_info)) n
       = inr values
    /\ reply = status_dict "success" ("Generated " ++ string_of_Z n ++ " contours")
                 [("contour_values", PList (List.map PFloat values))].
Proof.
  intros Hrun Hok.
  enough (H : wp (generate_contours engine array_name n)
    (fun r _ => forall reply, r = inr reply -> is_success reply = true ->
       exists array_info values,
         List.find (fun arr => String.eqb (da_name arr) array_name) (data_arrays self)
         = Some array_info
         /\ contour_levels (fst (da_range array_info)) (snd (da_range array_info)) n
            = inr values
         /\ reply = status_dict "success" ("Generated " ++ string_of_Z n ++ " contours")
                      [("contour_values", PList (List.map PFloat values))])
    (self, log)).
  { exact (H reply Hrun Hok). }
  clear Hrun Hok. unfold generate_contours.
  repeat (wp_step engine);
    try (intros reply0 [= <-] Hok; now cbn in Hok).
  intros reply0 [= <-] _.
  match goal with
  | Hrange : da_range ?d = (_, _), Hlevels : contour_levels _ _ n = inr ?l |- _ =>
      exists d, l; rewrite Hrange; cbn [fst snd]; auto
  end.
Qed.

(** C8 (as the code behaves): a successful [generate_contours] for an
    array recorded with range [(min_val, max_val)] and [n >= 1] returns
    exactly [n] levels, the i-th one the binary64 value of
    [min_val + step * (i + 1)] with [step] the binary64 value of
    [(max_val - min_val) / (n + 1)].  The closed form
    [min_val + (max_val - min_val) * (i + 1) / (n + 1)] and the strict
    bounds hold for the same computation on exact rationals. *)
Theorem generate_contours_levels array_name n self log reply array_info :
  (1 <= n)%Z ->
  List.find (fun arr => String.eqb (da_name arr) array_name) (data_arrays self)
  = Some array_info ->
  fst (generate_contours engine array_name n (self, log)) = inr reply ->
  is_success reply = true ->
  binary64_levels (fst (da_range array_info)) (snd (da_range array_info)) n reply
  /\ exact_levels n.
Proof.
  intros Hn Hfind Hrun Hok. split; [|now apply contour_levels_exact].
  destruct (generate_contours_success _ _ _ _ _ Hrun Hok)
    as (array_info' & values & Hfind' & Hlevels & ->).
  rewrite Hfind in Hfind'. injection Hfind' as <-.
  destruct (contour_levels_inr _ _ _ _ Hlevels)
    as (divisor & step & Hdivisor & Hstep & Hlen & Hnth).
  exists values, divisor, step. repeat split; auto.
Qed.

(** C9: for a [color_map_name] that is none of the eight preset keys,
    [apply_color_map] applies the ['Cool to Warm'] preset: the lookup does
    not fail, the only preset handed to the engine is ['Cool to Warm'],
    and the success message names the colour map the caller asked for. *)
Theorem apply_color_map_falls_back array_name color_map_name self log :
  ~ In color_map_name preset_keys ->
  falls_back engine array_name color_map_name self log.
Proof.
  intros Hnot. apply preset_lookup_unknown in Hnot. unfold falls_back.
  enough (H : wp (apply_color_map engine array_name color_map_name)
    (fun r s' => exists reply calls,
       r = inr reply /\ snd s' = (log ++ calls)%list
       /\ (forall tf preset rescale,
             In (ApplyPreset tf preset rescale) calls -> preset = "Cool to Warm")
       /\ (is_success reply = true ->
           (exists tf, In (ApplyPreset tf "Cool to Warm" true) calls)
           /\ pfield "message" reply
              = Some (PStr ("Applied " ++ color_map_name
                            ++ " color map to " ++ array_name)))
       /\ (never_raises engine ->
           current_representation self <> None -> array_name <> "" ->
           is_success reply = true))
    (self, log)).
  { unfold wp in H. destruct (apply_color_map _ _ _ _) as [r [self' log']].
    cbn [fst snd] in H. destruct H as (reply & calls & -> & -> & H).
    now exists reply, self', calls. }
  unfold apply_color_map.
  repeat (wp_step engine).
  all: rewrite ?Hnot; cbn [default].
  all: rewrite <- ?app_assoc; eexists; eexists; (split; [reflexivity|]).
  all: split; [first [reflexivity | symmetry; apply app_nil_r]|].
  all: split; [intros tf preset rescale Hin; cbn in Hin;
               intuition (try discriminate; congruence)|].
  all: split.
  all: try (intros Hok; now cbn in Hok).
  all: try (intros Hnr Hrep Hname; exfalso;
            first [ congruence
                  | apply Hname; now apply String.eqb_eq
                  | match goal with
                    | H : engine ?l ?c = inl _ |- _ =>
                        destruct (Hnr l c) as [? Ha]; rewrite Ha in H; discriminate
                    end ]).
  intros _. split; [|reflexivity]. eexists. cbn. tauto.
Qed.

End HandlerFacts.

(** C1 (as the code behaves): the real server registers a handler for the
    four names of the RPC surface and for no other.  The mock has no
    table of names.  It treats three method names in a branch of their
    own: [vtk.initialize] and [vtk.generate_contours] get their fixed
    results, [vtk.apply_color_map] a result naming [params.array_name] (or
    the error response when [params] has no [get]).  Whatever else the
    method of a request object is, the request gets a success result whose
    message is ['Mock response for '] followed by [str(method)];
    [vtk.export_image] is answered that way. *)
Theorem rpc_surface_as_implemented :
  (forall method, Server.lookup_handler method <> None <-> In method Spec.rpc_surface)
  /\ (forall json_loads json_dumps py_repr self message items,
        json_loads message = inr (Py.JDict items) ->
        (Spec.get_or "method" (Py.JStr "") items = Py.JStr "vtk.initialize" ->
         Mock.process_message json_loads json_dumps py_repr self message
         = (inr (json_dumps (Mock.success_response (Spec.get_or "id" Py.JNull items)
              [("status", Py.JStr "success");
               ("message", Py.JStr "Mock ParaView initialized");
               ("data_arrays",
                Py.JList [Py.JStr "Temperature"; Py.JStr "Pressure"; Py.JStr "Velocity"]);
               ("bounds",
                Py.JList [Py.JInt (-100); Py.JInt 100; Py.JInt (-50); Py.JInt 50;
                          Py.JInt (-75); Py.JInt 75]);
               ("points", Py.JInt 1234567);
               ("cells", Py.JInt 987654)])), self))
        /\ (Spec.get_or "method" (Py.JStr "") items = Py.JStr "vtk.apply_color_map" ->
            Mock.process_message json_loads json_dumps py_repr self message
            = (match Spec.array_name_of items with
               | inr array_name =>
                   inr (json_dumps
                          (Mock.success_response (Spec.get_or "id" Py.JNull items)
                             [("status", Py.JStr "success");
                              ("message",
                               Py.JStr ("Applied color map to "
                                        ++ Py.py_str py_repr array_name))]))
               | inl e =>
                   inr (json_dumps
                          (Py.JDict [("id", Spec.get_or "id" (Py.JInt 0) items);
                                     ("error",
                                      Py.JDict [("message", Py.JStr (Py.str_exn e))])]))
               end, self))
        /\ (Spec.get_or "method" (Py.JStr "") items = Py.JStr "vtk.generate_contours" ->
            Mock.process_message json_loads json_dumps py_repr self message
            = (inr (json_dumps (Mock.success_response (Spec.get_or "id" Py.JNull items)
                 [("status", Py.JStr "success");
                  ("message", Py.JStr "Generated 5 contours");
                  ("contour_values",
                   Py.JList [Py.JInt 10; Py.JInt 20; Py.JInt 30; Py.JInt 40;
                             Py.JInt 50])])), self))
        /\ ((forall name, In name Spec.mock_branches ->
                          Spec.get_or "method" (Py.JStr "") items <> Py.JStr name) ->
            Mock.process_message json_loads json_dumps py_repr self message
            = (inr (json_dumps (Mock.success_response (Spec.get_or "id" Py.JNull items)
                 [("status", Py.JStr "success");
                  ("message",
                   Py.JStr ("Mock response for "
                            ++ Py.py_str py_repr
                                 (Spec.get_or "method" (Py.JStr "") items)))])), self)))
  /\ (forall name, In name Spec.mock_branches -> In name Spec.rpc_surface)
  /\ ~ In "vtk.export_image" Spec.mock_branches.
Proof.
  split; [|split; [|split]].
  - intros method. unfold Server.lookup_handler, Server.registered, Spec.rpc_surface.
    cbn [Py.assoc In].
    repeat match goal with
           | |- context [String.eqb ?a method] =>
               destruct (String.eqb_spec a method)
           end; subst; split; intros H; try discriminate; try congruence; try tauto.
  - intros json_loads json_dumps py_repr self message items Hloads.
    split; [|split; [|split]]; intros Hm.
    + now apply process_message_initialize.
    + now apply process_message_apply_color_map.
    + now apply process_message_generate_contours.
    + now apply process_message_otherwise.
  - intros name [<-|[<-|[<-|[]]]]; cbn; tauto.
  - cbn. intuition discriminate.
Qed.


(* ================================================================= *)
(** ** The theorems at work on concrete runs *)

Section Examples.
Import Py Server Spec Samples.

Local Abbreviation mock :=
  (Mock.process_message RefCodec.json_loads RefCodec.json_dumps RefCodec.py_repr Mock.init).

(** C1, at a concrete message: a method outside the RPC surface, for which
    the real server has no handler, gets a success result from the mock. *)
Lemma mock_answers_unknown_method :
  RefCodec.process msg_unknown_method
  = inr (RefCodec.dq
      "{'id': 1, 'result': {'status': 'success', 'message': 'Mock response for foo'}}")
  /\ ~ In "foo" rpc_surface
  /\ lookup_handler "foo" = None.
Proof.
  split; [vm_compute; reflexivity|]. split; [|reflexivity].
  cbn. intuition discriminate.
Qed.

Lemma rpc_surface_as_implemented_witness :
  (RefCodec.json_loads msg_export_image
   = inr (JDict [("id", JInt 2); ("method", JStr "vtk.export_image");
                 ("params", JDict [("filename", JStr "a.png")])])
   /\ mock msg_export_image
      = (inr (RefCodec.json_dumps (Mock.success_response (JInt 2)
           [("status", JStr "success");
            ("message", JStr "Mock response for vtk.export_image")])), Mock.init))
  /\ (RefCodec.json_loads msg_initialize
      = inr (JDict [("id", JInt 7); ("method", JStr "vtk.initialize")])
      /\ mock msg_initialize
         = (inr (RefCodec.json_dumps (Mock.success_response (JInt 7)
              [("status", JStr "success");
               ("message", JStr "Mock ParaView initialized");
               ("data_arrays", JList [JStr "Temperature"; JStr "Pressure"; JStr "Velocity"]);
               ("bounds", JList [JInt (-100); JInt 100; JInt (-50); JInt 50;
                                 JInt (-75); JInt 75]);
               ("points", JInt 1234567);
               ("cells", JInt 987654)])), Mock.init)).
Proof.
  split; (split; [vm_compute; reflexivity|]).
  - apply (proj2 (proj2 (proj2
             (proj1 (proj2 rpc_surface_as_implemented)
                RefCodec.json_loads RefCodec.json_dumps RefCodec.py_repr Mock.init
                msg_export_image
                [("id", JInt 2); ("method", JStr "vtk.export_image");
                 ("params", JDict [("filename", JStr "a.png")])]
                ltac:(vm_compute; reflexivity))))).
    intros name [<-|[<-|[<-|[]]]]; discriminate.
  - apply (proj1
             (proj1 (proj2 rpc_surface_as_implemented)
                RefCodec.json_loads RefCodec.json_dumps RefCodec.py_repr Mock.init
                msg_initialize
                [("id", JInt 7); ("method", JStr "vtk.initialize")]
                ltac:(vm_compute; reflexivity))).
    reflexivity.
Defined.

(** C2, at concrete messages: a text that is not JSON and a JSON array
    both make [process_message] raise. *)
Lemma process_message_propagates_witness :
  (RefCodec.json_loads msg_not_json = inl (RefCodec.JSONDecodeError "Expecting value")
   /\ fst (mock msg_not_json) = inl (UnboundLocalError "data"))
  /\ (RefCodec.json_loads msg_array = inr (JList [JInt 1; JInt 2])
      /\ fst (mock msg_array) = inl (AttributeError "list" "get")).
Proof.
  split; (split; [vm_compute; reflexivity|]).
  - apply (proj1 (process_message_propagates RefCodec.json_loads RefCodec.json_dumps RefCodec.py_repr
                    Mock.init msg_not_json)
             (RefCodec.JSONDecodeError "Expecting value")).
    vm_compute. reflexivity.
  - apply (proj2 (process_message_propagates RefCodec.json_loads RefCodec.json_dumps RefCodec.py_repr
                    Mock.init msg_array)
             (JList [JInt 1; JInt 2])).
    + vm_compute. reflexivity.
    + discriminate.
Defined.

Lemma response_echoes_id_witness :
  mock msg_color_bad_params
  = (inr (RefCodec.dq "{'id': 4, 'error': {'message': "
          ++ RefCodec.encode_str "'int' object has no attribute 'get'" ++ "}}"),
     Mock.init)
  /\ exists items d,
      RefCodec.json_loads msg_color_bad_params = inr (JDict items)
      /\ RefCodec.dq "{'id': 4, 'error': {'message': "
         ++ RefCodec.encode_str "'int' object has no attribute 'get'" ++ "}}"
         = RefCodec.json_dumps d
      /\ ((field "result" d <> None /\ field "error" d = None
           /\ field "id" d = Some (get_or "id" JNull items))
          \/ (field "error" d <> None /\ field "result" d = None
              /\ field "id" d = Some (get_or "id" (JInt 0) items))).
Proof.
  split; [vm_compute; reflexivity|].
  apply (response_echoes_id RefCodec.json_loads RefCodec.json_dumps RefCodec.py_repr
           Mock.init msg_color_bad_params _ Mock.init).
  vm_compute. reflexivity.
Defined.

(** C5, at concrete messages: two [vtk.apply_color_map] requests with the
    same id whose params differ get different result payloads. *)
Lemma apply_color_map_payload_depends_on_params :
  RefCodec.process msg_color_temperature
  = inr (RefCodec.dq
      "{'id': 3, 'result': {'status': 'success', 'message': 'Applied color map to Temperature'}}")
  /\ RefCodec.process msg_color_pressure
     = inr (RefCodec.dq
         "{'id': 3, 'result': {'status': 'success', 'message': 'Applied color map to Pressure'}}")
  /\ (exists items1 items2,
        RefCodec.json_loads msg_color_temperature = inr (JDict items1)
        /\ RefCodec.json_loads msg_color_pressure = inr (JDict items2)
        /\ get_or "method" (JStr "") items1 = JStr "vtk.apply_color_map"
        /\ get_or "method" (JStr "") items2 = JStr "vtk.apply_color_map"
        /\ get_or "id" JNull items1 = get_or "id" JNull items2)
  /\ RefCodec.process msg_color_temperature <> RefCodec.process msg_color_pressure.
Proof.
  split; [vm_compute; reflexivity|]. split; [vm_compute; reflexivity|]. split.
  - eexists. eexists. split; [vm_compute; reflexivity|].
    split; [vm_compute; reflexivity|]. repeat split.
  - vm_compute. discriminate.
Qed.

Lemma result_payload_per_method_witness :
  exists result,
    fst (mock msg_color_temperature)
    = inr (RefCodec.json_dumps (Mock.success_response (JInt 3) result))
    /\ fst (mock msg_color_temperature_again)
       = inr (RefCodec.json_dumps (Mock.success_response (JInt 9) result)).
Proof.
  apply (result_payload_per_method RefCodec.json_loads RefCodec.json_dumps RefCodec.py_repr
           Mock.init Mock.init msg_color_temperature msg_color_temperature_again
           [("id", JInt 3); ("method", JStr "vtk.apply_color_map");
            ("params", JDict [("array_name", JStr "Temperature")])]
           [("method", JStr "vtk.apply_color_map"); ("id", JInt 9);
            ("params", JDict [("color_map_name", JStr "Jet");
                              ("array_name", JStr "Temperature")])]).
  - vm_compute. reflexivity.
  - vm_compute. reflexivity.
  - reflexivity.
  - right. exists (JStr "Temperature"). split; reflexivity.
Defined.

Lemma response_matches_schema_witness :
  mock msg_color_bad_params
  = (inr (RefCodec.dq "{'id': 4, 'error': {'message': "
          ++ RefCodec.encode_str "'int' object has no attribute 'get'" ++ "}}"),
     Mock.init)
  /\ exists d,
      RefCodec.dq "{'id': 4, 'error': {'message': "
      ++ RefCodec.encode_str "'int' object has no attribute 'get'" ++ "}}"
      = RefCodec.json_dumps d
      /\ matches_schema d = true.
Proof.
  split; [vm_compute; reflexivity|].
  apply (response_matches_schema RefCodec.json_loads RefCodec.json_dumps RefCodec.py_repr
           Mock.init msg_color_bad_params _ Mock.init).
  vm_compute. reflexivity.
Defined.

(** The handlers on an engine that raises at the first call. *)
Example handlers_on_broken_engine :
  fst (initialize_visualization broken_engine (init, []))
  = inr (status_dict "error" "Initialization failed: engine unavailable" [])
  /\ fst (apply_color_map broken_engine "Temperature" "Jet" (loaded, []))
     = inr (status_dict "error" "Color mapping failed: engine unavailable" [])
  /\ fst (generate_contours broken_engine "Temperature" 5 (loaded, []))
     = inr (status_dict "error" "Contour generation failed: engine unavailable" [])
  /\ fst (export_image broken_engine "a.png" 1920 1080 (loaded, []))
     = inr (status_dict "error" "Image export failed: engine unavailable" []).
Proof. repeat split. Qed.

(** C8, at concrete runs.  For the range (0, 1) and nine levels the third
    level is 0.30000000000000004, while the closed form evaluates to 0.3;
    for the range (1e16, 1e16 + 2) and one level the level is 1e16, the
    lower bound itself. *)
#[warnings="-inexact-float"] Lemma contour_levels_are_rounded :
  (fst (generate_contours dataset_engine "Temperature" 9 (loaded, []))
   = inr reply_temperature_9
   /\ nth_error levels_temperature_9 2 = Some 0.30000000000000004%float
   /\ (0 + (1 - 0) * 3 / 10 =? 0.3)%float = true
   /\ (0.30000000000000004 =? 0 + (1 - 0) * 3 / 10)%float = false)
  /\ (fst (generate_contours dataset_engine "Pressure" 1 (loaded, []))
      = inr reply_pressure_1
      /\ (1e16 <? 10000000000000002)%float = true
      /\ (1e16 <? 1e16)%float = false).
Proof.
  repeat split; vm_compute; reflexivity.
Qed.

Lemma generate_contours_levels_witness :
  binary64_levels 0 1 9 reply_temperature_9 /\ exact_levels 9.
Proof.
  apply (generate_contours_levels dataset_engine "Temperature" 9 loaded []
           reply_temperature_9
           {| da_name := "Temperature"; da_range := (0, 1)%float; da_components := 1 |}).
  - lia.
  - reflexivity.
  - vm_compute. reflexivity.
  - reflexivity.
Defined.

Lemma apply_color_map_falls_back_witness :
  ~ In "Turbo" preset_keys
  /\ falls_back dataset_engine "Temperature" "Turbo" loaded [].
Proof.
  assert (Hnot : ~ In "Turbo" preset_keys) by (cbn; intuition discriminate).
  split; [exact Hnot|].
  apply (apply_color_map_falls_back dataset_engine "Temperature" "Turbo" loaded []).
  exact Hnot.
Defined.

End Examples.


(* ================================================================= *)
(** ** Further properties of the mock server *)

Section MockSessions.
Import Py Mock Spec.

Variable json_loads : string -> result json.
Variable json_dumps : json -> string.
Variable py_repr : json -> string.

Local Abbreviation process_message :=
  (Mock.process_message json_loads json_dumps py_repr).
Local Abbreviation serve := (Mock.serve json_loads json_dumps py_repr).
Local Abbreviation handle_client := (Mock.handle_client json_loads json_dumps py_repr).

(** The message loop leaves the server object as it found it. *)
Lemma serve_keeps_self self inbox : snd (serve self inbox) = self.
Proof.
  revert self. induction inbox as [|[message send] rest IH]; intros self; cbn;
    [reflexivity|].
  pose proof (process_message_keeps_self json_loads json_dumps py_repr self message)
    as Hself.
  destruct (process_message self message) as [[e|response] self1]; cbn in Hself; subst self1.
  - reflexivity.
  - destruct send as [e|[]]; [reflexivity|].
    specialize (IH self). destruct (serve self rest) as [[sent raised] self2].
    exact IH.
Qed.



(** X1: when [handle_client] is over, normally or because an exception
    left [process_message], the client is no longer in
    [connected_clients], and no other client was added or removed. *)
Theorem handle_client_forgets_client self ws inbox :
  connected_clients (snd (handle_client self ws inbox))
  = connected_clients self ∖ {[ ws ]}.
Proof.
  unfold Mock.handle_client.
  pose proof (serve_keeps_self {| connected_clients := connected_clients self ∪ {[ws]} |}
                               inbox) as Hself.
  destruct (serve _ inbox) as [[sent raised] self2]. cbn in *. subst self2. cbn.
  apply set_eq. intros x. set_unfold. tauto.
Qed.


(** X3: [process_message] returns a response exactly for the messages
    that decode to a JSON object; on every other message it raises. *)
Theorem process_message_answers_objects self message :
  (exists response, fst (process_message self message) = inr response)
  <-> (exists items, json_loads message = inr (JDict items)).
Proof.
  split.
  - intros (response & Hrun).
    pose proof (process_message_keeps_self json_loads json_dumps py_repr self message) as Hself.
    destruct (process_message self message) as [r self'] eqn:Heq. cbn in *. subst.
    destruct (process_message_returns _ _ _ _ _ _ _ Heq) as (items & Hloads & _).
    now exists items.
  - intros (items & Hloads).
    destruct (method_cases items) as [Hm|[Hm|[Hm|Hm]]].
    + rewrite (process_message_initialize _ _ _ _ _ _ Hloads Hm). now eexists.
    + rewrite (process_message_apply_color_map _ _ _ _ _ _ Hloads Hm).
      destruct (array_name_of items); now eexists.
    + rewrite (process_message_generate_contours _ _ _ _ _ _ Hloads Hm). now eexists.
    + rewrite (process_message_otherwise _ _ _ _ _ _ Hloads Hm). now eexists.
Qed.

(** X4: for a request object, the [except] clause answers in exactly one
    situation: the method is [vtk.apply_color_map] and [params] is present
    but not an object.  The error message is then the [AttributeError]
    text for the type of [params] and a missing id is reported as 0.
    Every other request object gets a result. *)
Theorem error_response_only_for_bad_params self message items :
  json_loads message = inr (JDict items) ->
  (exists params,
      get_or "method" (JStr "") items = JStr "vtk.apply_color_map"
      /\ assoc "params" items = Some params
      /\ (forall d, params <> JDict d)
      /\ fst (process_message self message)
         = inr (json_dumps
                  (JDict [("id", get_or "id" (JInt 0) items);
                          ("error",
                           JDict [("message",
                                   JStr ("'" ++ type_name params
                                         ++ "' object has no attribute 'get'"))])])))
  \/ ((get_or "method" (JStr "") items <> JStr "vtk.apply_color_map"
       \/ assoc "params" items = None
       \/ exists d, assoc "params" items = Some (JDict d))
      /\ exists result,
          fst (process_message self message)
          = inr (json_dumps (success_response (get_or "id" JNull items) result))).
Proof.
  intros Hloads.
  destruct (method_cases items) as [Hm|[Hm|[Hm|Hm]]].
  - right. split; [left; congruence|].
    rewrite (process_message_initialize _ _ _ _ _ _ Hloads Hm). now eexists.
  - rewrite (process_message_apply_color_map _ _ _ _ _ _ Hloads Hm).
    unfold array_name_of. cbn [py_get bind ret].
    destruct (assoc "params" items) as [params|] eqn:Hparams.
    + destruct params as [| | | | | |d];
        try (left; eexists; split; [exact Hm|]; split; [reflexivity|];
             split; [discriminate|reflexivity]).
      right. split; [right; right; now exists d|]. now eexists.
    + right. split; [right; now left|]. now eexists.
  - right. split; [left; congruence|].
    rewrite (process_message_generate_contours _ _ _ _ _ _ Hloads Hm). now eexists.
  - right. split; [left; apply Hm; cbn; tauto|].
    rewrite (process_message_otherwise _ _ _ _ _ _ Hloads Hm). now eexists.
Qed.

End MockSessions.



(* ================================================================= *)
(** ** Further properties of the protocol handlers *)

Section LoopLogic.
Import Py Server Spec.

(** Loops: an invariant kept by every iteration holds when the loop
    ends, normally or by an exception. *)
Lemma wp_for_each {A} (Inv : state -> Prop) (l : list A) (body : A -> M unit)
      (Q : result unit -> state -> Prop) s :
  Inv s ->
  (forall a s0, Inv s0 -> wp (body a) (fun _ s' => Inv s') s0) ->
  (forall r s', Inv s' -> Q r s') ->
  wp (for_each l body) Q s.
Proof.
  intros Hs Hbody HQ. revert s Hs.
  induction l as [|a rest IH]; intros s Hs; cbn [for_each].
  - apply wp_ret. now apply HQ.
  - apply wp_bind. specialize (Hbody a s Hs). unfold wp in *.
    destruct (body a s) as [[e|[]] s1]; cbn [fst snd] in *.
    + now apply HQ.
    + now apply IH.
Qed.

(** Loops, counting the iterations completed. *)
Lemma wp_for_each_count {A} (Inv : nat -> state -> Prop) (l : list A) (body : A -> M unit)
      (Q : result unit -> state -> Prop) (k : nat) s :
  Inv k s ->
  (forall a j s0, Inv j s0 ->
     wp (body a) (fun r s' => match r with
                              | inr _ => Inv (S j) s'
                              | inl _ => True
                              end) s0) ->
  (forall s', Inv (k + List.length l)%nat s' -> Q (inr tt) s') ->
  (forall e s', Q (inl e) s') ->
  wp (for_each l body) Q s.
Proof.
  intros Hs Hbody Hdone Hraise. revert k s Hs Hdone.
  induction l as [|a rest IH]; intros k s Hs Hdone; cbn [for_each].
  - apply wp_ret. apply Hdone. cbn. now rewrite Nat.add_0_r.
  - apply wp_bind. specialize (Hbody a k s Hs). unfold wp in *.
    destruct (body a s) as [[e|[]] s1]; cbn [fst snd] in *.
    + apply Hraise.
    + apply (IH (S k)); [exact Hbody|].
      intros s' Hs'. apply Hdone. cbn [List.length].
      now rewrite Nat.add_succ_r.
Qed.

End LoopLogic.

(** Runs [wp_step] through a handler, up to the next loop. *)
Ltac wp_go engine :=
  repeat first
    [ wp_step engine
    | lazymatch goal with
      | |- Spec.wp (Server.on_attr _ _ _) _ _ => unfold Server.on_attr
      | |- Spec.wp (let _ := _ in _) _ _ => cbv zeta
      end ].

Section MoreHandlerFacts.
Import Py Server Spec.
Variable engine : engine_t.

(** X5: a handler whose guard fails ([apply_color_map] without a
    representation or with an empty array name, [generate_contours]
    without a reader or with an empty array name, [export_image] without a
    view) returns its guard error without calling the engine and without
    changing the protocol object. *)
Theorem guards_refuse_without_engine self log :
  (forall array_name color_map_name,
      current_representation self = None \/ array_name = "" ->
      apply_color_map engine array_name color_map_name (self, log)
      = (inr (status_dict "error" "No valid representation or array" []), (self, log)))
  /\ (forall array_name num_contours,
         reader self = None \/ array_name = "" ->
         generate_contours engine array_name num_contours (self, log)
         = (inr (status_dict "error" "No valid data or array" []), (self, log)))
  /\ (forall filename width height,
         view self = None ->
         export_image engine filename width height (self, log)
         = (inr (status_dict "error" "No valid view" []), (self, log))).
Proof.
  repeat split.
  - intros array_name color_map_name H.
    unfold apply_color_map, try_except, mbind, gets, mret. cbn [fst snd ret].
    destruct (current_representation self) as [rep|]; [|reflexivity].
    destruct H as [H| ->]; [discriminate|]. reflexivity.
  - intros array_name num_contours H.
    unfold generate_contours, try_except, mbind, gets, mret. cbn [fst snd ret].
    destruct (reader self) as [r|]; [|reflexivity].
    destruct H as [H| ->]; [discriminate|]. reflexivity.
  - intros filename width height H.
    unfold export_image, try_except, mbind, gets, mret. cbn [fst snd ret].
    rewrite H. reflexivity.
Qed.

(** From a verified postcondition to a particular run. *)
Lemma wp_run {A} (m : M A) (Q : result A -> state -> Prop) s r s' :
  wp m Q s -> m s = (r, s') -> Q r s'.
Proof. unfold wp. intros H Hrun. now rewrite Hrun in H. Qed.

(** X6: what the handlers leave alone.  [apply_color_map] and
    [export_image] never change the protocol object; [generate_contours]
    changes at most [contour_filter]; [initialize_visualization] never
    changes [contour_filter], [volume_representation] or [color_map]. *)
Theorem handlers_frame s :
  (forall array_name color_map_name,
      fst (snd (apply_color_map engine array_name color_map_name s)) = fst s)
  /\ (forall filename width height,
         fst (snd (export_image engine filename width height s)) = fst s)
  /\ (forall array_name num_contours,
         fst (snd (generate_contours engine array_name num_contours s)) = fst s
         \/ exists c, fst (snd (generate_contours engine array_name num_contours s))
                      = set_contour_filter (Some c) (fst s))
  /\ (contour_filter (fst (snd (initialize_visualization engine s)))
      = contour_filter (fst s)
      /\ volume_representation (fst (snd (initialize_visualization engine s)))
         = volume_representation (fst s)
      /\ color_map (fst (snd (initialize_visualization engine s))) = color_map (fst s)).
Proof.
  destruct s as [self log]. cbn [fst]. split; [|split; [|split]].
  - intros array_name color_map_name.
    change (wp (apply_color_map engine array_name color_map_name)
               (fun _ s' => fst s' = self) (self, log)).
    unfold apply_color_map. wp_go engine; reflexivity.
  - intros filename width height.
    change (wp (export_image engine filename width height)
               (fun _ s' => fst s' = self) (self, log)).
    unfold export_image. wp_go engine; reflexivity.
  - intros array_name num_contours.
    change (wp (generate_contours engine array_name num_contours)
               (fun _ s' => fst s' = self
                            \/ exists c, fst s' = set_contour_filter (Some c) self)
               (self, log)).
    unfold generate_contours. wp_go engine;
      first [left; reflexivity | right; eexists; reflexivity].
  - change (wp (initialize_visualization engine)
               (fun _ s' => contour_filter (fst s') = contour_filter self
                            /\ volume_representation (fst s') = volume_representation self
                            /\ color_map (fst s') = color_map self)
               (self, log)).
    unfold initialize_visualization. wp_go engine; try (repeat split; reflexivity).
    apply (wp_for_each
             (fun s0 => contour_filter (fst s0) = contour_filter self
                        /\ volume_representation (fst s0) = volume_representation self
                        /\ color_map (fst s0) = color_map self)).
    + repeat split; reflexivity.
    + intros i [self0 log0] Hinv. wp_go engine; exact Hinv.
    + intros [e|[]] [self1 log1] Hinv; wp_go engine; exact Hinv.
Qed.






(** No level for [num_contours = 0]; a division by zero for [-1]. *)
Lemma contour_levels_none (min_val max_val : float) :
  contour_levels min_val max_val 0 = inr []
  /\ contour_levels min_val max_val (-1) = inl ZeroDivisionError.
Proof.
  unfold contour_levels. cbn [num_of_int num_div num_sub float_number].
  replace (int_to_float (0 + 1)) with (inr 1%float : result float)
    by (vm_compute; reflexivity).
  replace (int_to_float (-1 + 1)) with (inr 0%float : result float)
    by (vm_compute; reflexivity).
  cbn [bind]. unfold float_div.
  replace (PrimFloat.eqb 1 PrimFloat.zero) with false by (vm_compute; reflexivity).
  replace (PrimFloat.eqb 0 PrimFloat.zero) with true by (vm_compute; reflexivity).
  split; reflexivity.
Qed.

(** X10: [generate_contours] with [num_contours = -1] never succeeds (the
    step divides by zero, which the handler reports), and with
    [num_contours = 0] a success reply carries an empty list of levels. *)
Theorem generate_contours_no_levels array_name self log reply :
  (fst (generate_contours engine array_name (-1) (self, log)) = inr reply ->
   is_success reply = false)
  /\ (fst (generate_contours engine array_name 0 (self, log)) = inr reply ->
      is_success reply = true ->
      reply = status_dict "success" "Generated 0 contours"
                [("contour_values", PList [])]).
Proof.
  split.
  - intros Hrun. destruct (is_success reply) eqn:Hok; [|reflexivity].
    destruct (generate_contours_success _ _ _ _ _ _ Hrun Hok)
      as (array_info & values & _ & Hlevels & _).
    rewrite (proj2 (contour_levels_none _ _)) in Hlevels. discriminate.
  - intros Hrun Hok.
    destruct (generate_contours_success _ _ _ _ _ _ Hrun Hok)
      as (array_info & values & _ & Hlevels & ->).
    rewrite (proj1 (contour_levels_none _ _)) in Hlevels. injection Hlevels as <-.
    reflexivity.
Qed.

(** X8: [initialize_visualization] stores the new view as soon as
    [CreateView] returns; it is still in [self.view] when the handler
    reports an error later on. *)
Theorem initialize_sets_view self log v :
  engine log (CreateView "RenderView") = inr v ->
  view (fst (snd (initialize_visualization engine (self, log)))) = Some v.
Proof.
  intros Hcreate.
  change (wp (initialize_visualization engine)
             (fun _ s' => view (fst s') = Some v) (self, log)).
  unfold initialize_visualization.
  wp_go engine; try discriminate; try (injection Hcreate as ->; reflexivity).
  injection Hcreate as ->.
  apply (wp_for_each (fun s0 => view (fst s0) = Some v)).
  - reflexivity.
  - intros i [self0 log0] Hinv. wp_go engine; exact Hinv.
  - intros [e|[]] [self1 log1] Hinv; wp_go engine; exact Hinv.
Qed.

(** X9: the three replies of [initialize_visualization]: success, an
    exception reported as ['Initialization failed: ...'], or ['VTK file
    not found: <path>'].  In the last case the path is one of the two
    candidates, the engine was asked only for the view and the two
    existence checks, and the protocol object changed only in its view. *)
#[warnings="-inexact-float"] Theorem initialize_replies self log :
  exists reply self' log',
    initialize_visualization engine (self, log) = (inr reply, (self', log'))
    /\ (is_success reply = true
        \/ (exists e,
               reply = status_dict "error" ("Initialization failed: " ++ str_exn e) [])
        \/ (exists path v,
               reply = status_dict "error" ("VTK file not found: " ++ path) []
               /\ (path = "Topology.vtk" \/ path = "public/Topology.vtk")
               /\ self' = set_view (Some v) self
               /\ log' = (log ++ [CreateView "RenderView";
                                  SetAttr v "ViewSize" (PList [PInt 1200; PInt 800]);
                                  SetAttr v "Background"
                                    (PList [PFloat 0.1; PFloat 0.1; PFloat 0.1]);
                                  PathExists "public/Topology.vtk";
                                  PathExists path])%list)).
Proof.
  enough (H : wp (initialize_visualization engine)
    (fun r s' => exists reply, r = inr reply /\
       (is_success reply = true
        \/ (exists e,
               reply = status_dict "error" ("Initialization failed: " ++ str_exn e) [])
        \/ (exists path v,
               reply = status_dict "error" ("VTK file not found: " ++ path) []
               /\ (path = "Topology.vtk" \/ path = "public/Topology.vtk")
               /\ fst s' = set_view (Some v) self
               /\ snd s' = (log ++ [CreateView "RenderView";
                                  SetAttr v "ViewSize" (PList [PInt 1200; PInt 800]);
                                  SetAttr v "Background"
                                    (PList [PFloat 0x1.999999999999ap-4;
                                            PFloat 0x1.999999999999ap-4;
                                            PFloat 0x1.999999999999ap-4]);
                                  PathExists "public/Topology.vtk";
                                  PathExists path])%list))) (self, log)).
  { unfold wp in H. destruct (initialize_visualization _ _) as [r [self' log']].
    cbn [fst snd] in H. destruct H as (reply & -> & H). now exists reply, self', log'. }
  unfold initialize_visualization.
  wp_go engine;
    try (eexists; split; [reflexivity|]; right; left; eexists; reflexivity).
  - apply (wp_for_each (fun _ => True)); [exact I| |].
    + intros i s0 _. wp_go engine; exact I.
    + intros [e|[]] s1 _; wp_go engine;
        first [ eexists; split; [reflexivity|]; right; left; eexists; reflexivity
              | eexists; split; [reflexivity|]; left; reflexivity ].
  - eexists. split; [reflexivity|]. right. right.
    rewrite <- !app_assoc.
    match goal with
    | |- context [negb ?b] => destruct b
    end; do 2 eexists; (split; [reflexivity|]); (split; [|split; reflexivity]);
      [right|left]; reflexivity.
Qed.

(** What a successful [initialize_visualization] leaves behind. *)
Lemma initialize_success_state self log reply self' log' :
  initialize_visualization engine (self, log) = (inr reply, (self', log')) ->
  is_success reply = true ->
  (exists v r rep,
      view self' = Some v /\ reader self' = Some r
      /\ current_representation self' = Some rep)
  /\ pfield "data_arrays" reply = Some (PList (List.map data_array_dict (data_arrays self')))
  /\ exists before point_data n after,
      log' = (log ++ before ++ GetNumberOfArrays point_data :: after)%list
      /\ engine (log ++ before)%list (GetNumberOfArrays point_data) = inr n
      /\ List.length (data_arrays self') = Z.to_nat n.
Proof.
  intros Hrun Hok.
  refine (wp_run _ (fun r s' => forall reply, r = inr reply -> is_success reply = true ->
     (exists v r rep,
        view (fst s') = Some v /\ reader (fst s') = Some r
        /\ current_representation (fst s') = Some rep)
     /\ pfield "data_arrays" reply
        = Some (PList (List.map data_array_dict (data_arrays (fst s'))))
     /\ exists before point_data n after,
         snd s' = (log ++ before ++ GetNumberOfArrays point_data :: after)%list
         /\ engine (log ++ before)%list (GetNumberOfArrays point_data) = inr n
         /\ List.length (data_arrays (fst s')) = Z.to_nat n)
     _ _ _ _ Hrun reply eq_refl Hok).
  clear. unfold initialize_visualization.
  wp_go engine; try (intros reply [= <-] Hok; now cbn in Hok).
  match goal with
  | Hn : engine ?X (GetNumberOfArrays ?pd) = inr ?n
    |- wp (for_each _ _) _ (?self0, _) =>
      assert (Hpre : exists before, X = (log ++ before)%list)
        by (eexists; rewrite <- !app_assoc; reflexivity);
      destruct Hpre as [before Hpre]; rewrite Hpre in *;
      apply (wp_for_each_count
               (fun j s0 =>
                  (exists v r rep,
                      view (fst s0) = Some v /\ reader (fst s0) = Some r
                      /\ current_representation (fst s0) = Some rep)
                  /\ List.length (data_arrays (fst s0)) = j
                  /\ exists after,
                      snd s0 = (log ++ before ++ GetNumberOfArrays pd :: after)%list)
               _ _ _ 0%nat)
  end.
  - split; [do 3 eexists; repeat split; reflexivity|]. split; [reflexivity|].
    exists []. now rewrite <- app_assoc.
  - intros i j [self0 log0] (Hfields & Hlen & after & Hlog). cbn [fst snd] in *.
    wp_go engine; try exact I.
    split; [exact Hfields|]. split.
    + rewrite length_app, Hlen. cbn. lia.
    + subst log0. eexists. rewrite <- !app_assoc. cbn [app]. reflexivity.
  - intros [self1 log1] ((v & rd & rep & Hv & Hrd & Hrep) & Hlen & after & Hlog).
    cbn [fst snd] in *.
    wp_go engine; intros reply [= <-] Hok; try (now cbn in Hok).
    split; [do 3 eexists; repeat split; eassumption|]. split; [reflexivity|].
    subst log1. do 4 eexists. split; [|split; [eassumption|]].
    + rewrite <- !app_assoc. cbn [app]. reflexivity.
    + rewrite Hlen. apply py_range_length.
  - intros e s1. wp_go engine. intros reply [= <-] Hok. now cbn in Hok.
Qed.

(** A guard error is returned only when the guard failed. *)
Lemma guard_error_inv self log :
  (forall array_name color_map_name,
      fst (apply_color_map engine array_name color_map_name (self, log))
      = inr (status_dict "error" "No valid representation or array" []) ->
      current_representation self = None \/ array_name = "")
  /\ (forall array_name num_contours,
         fst (generate_contours engine array_name num_contours (self, log))
         = inr (status_dict "error" "No valid data or array" []) ->
         reader self = None \/ array_name = "")
  /\ (forall filename width height,
         fst (export_image engine filename width height (self, log))
         = inr (status_dict "error" "No valid view" []) ->
         view self = None).
Proof.
  repeat split.
  - intros array_name color_map_name.
    change (wp (apply_color_map engine array_name color_map_name)
              (fun r _ => r = inr (status_dict "error" "No valid representation or array" [])
                          -> current_representation self = None \/ array_name = "")
              (self, log)).
    unfold apply_color_map. wp_go engine; intros Hreply; try discriminate Hreply.
    + right. now apply String.eqb_eq.
    + now left.
  - intros array_name num_contours.
    change (wp (generate_contours engine array_name num_contours)
              (fun r _ => r = inr (status_dict "error" "No valid data or array" [])
                          -> reader self = None \/ array_name = "")
              (self, log)).
    unfold generate_contours. wp_go engine; intros Hreply; try discriminate Hreply.
    + right. now apply String.eqb_eq.
    + now left.
  - intros filename width height.
    change (wp (export_image engine filename width height)
              (fun r _ => r = inr (status_dict "error" "No valid view" [])
                          -> view self = None)
              (self, log)).
    unfold export_image. wp_go engine; intros Hreply; try discriminate Hreply.
    reflexivity.
Qed.

(** X7: after a successful [initialize_visualization] the reply lists
    exactly the arrays now in [self.data_arrays], and there are as many of
    them as the engine answered to [GetNumberOfArrays] in this run (none
    for a count of zero or less): earlier entries are replaced, not kept. *)
Theorem initialize_records_arrays self log reply self' log' :
  initialize_visualization engine (self, log) = (inr reply, (self', log')) ->
  is_success reply = true ->
  pfield "data_arrays" reply = Some (PList (List.map data_array_dict (data_arrays self')))
  /\ exists before point_data n after,
      log' = (log ++ before ++ GetNumberOfArrays point_data :: after)%list
      /\ engine (log ++ before)%list (GetNumberOfArrays point_data) = inr n
      /\ List.length (data_arrays self') = Z.to_nat n.
Proof.
  intros Hrun Hok. exact (proj2 (initialize_success_state _ _ _ _ _ Hrun Hok)).
Qed.

(** X15: a successful [initialize_visualization] enables the other three
    handlers: on the protocol object it leaves, whatever the engine was
    asked since, none of them answers with its guard error (for a
    non-empty array name). *)
Theorem initialize_enables_handlers self log reply self' log' :
  initialize_visualization engine (self, log) = (inr reply, (self', log')) ->
  is_success reply = true ->
  forall later,
    (forall array_name color_map_name, array_name <> "" ->
        fst (apply_color_map engine array_name color_map_name (self', later))
        <> inr (status_dict "error" "No valid representation or array" []))
    /\ (forall array_name num_contours, array_name <> "" ->
           fst (generate_contours engine array_name num_contours (self', later))
           <> inr (status_dict "error" "No valid data or array" []))
    /\ (forall filename width height,
           fst (export_image engine filename width height (self', later))
           <> inr (status_dict "error" "No valid view" [])).
Proof.
  intros Hrun Hok later.
  destruct (proj1 (initialize_success_state _ _ _ _ _ Hrun Hok))
    as (v & r & rep & Hv & Hr & Hrep).
  destruct (guard_error_inv self' later) as (Hcolor & Hcontour & Hexport).
  repeat split.
  - intros array_name color_map_name Hname Hreply.
    destruct (Hcolor _ _ Hreply); congruence.
  - intros array_name num_contours Hname Hreply.
    destruct (Hcontour _ _ Hreply); congruence.
  - intros filename width height Hreply.
    specialize (Hexport _ _ _ Hreply). congruence.
Qed.

End MoreHandlerFacts.


(* ================================================================= *)
(** ** The further properties at work on concrete runs *)

Section MoreExamples.
Import Py Server Spec Samples.

Lemma error_response_only_for_bad_params_witness :
  RefCodec.json_loads msg_color_bad_params
  = inr (JDict [("id", JInt 4); ("method", JStr "vtk.apply_color_map");
                ("params", JInt 5)])
  /\ exists params,
      assoc "params" [("id", JInt 4); ("method", JStr "vtk.apply_color_map");
                      ("params", JInt 5)] = Some params
      /\ fst (Mock.process_message RefCodec.json_loads RefCodec.json_dumps RefCodec.py_repr Mock.init
                msg_color_bad_params)
         = inr (RefCodec.json_dumps
                  (JDict [("id", JInt 4);
                          ("error",
                           JDict [("message",
                                   JStr ("'" ++ type_name params
                                         ++ "' object has no attribute 'get'"))])])).
Proof.
  split; [vm_compute; reflexivity|].
  destruct (error_response_only_for_bad_params
              RefCodec.json_loads RefCodec.json_dumps RefCodec.py_repr Mock.init msg_color_bad_params
              [("id", JInt 4); ("method", JStr "vtk.apply_color_map"); ("params", JInt 5)])
    as [(params & _ & Hparams & _ & Hrun)|([Hm|[Hnone|(d & Hd)]] & _)].
  - vm_compute. reflexivity.
  - exists params. split; [exact Hparams|exact Hrun].
  - exfalso. apply Hm. reflexivity.
  - discriminate Hnone.
  - discriminate Hd.
Defined.

Lemma guards_refuse_without_engine_witness :
  (current_representation init = None
   /\ apply_color_map dataset_engine "Temperature" "Jet" (init, [])
      = (inr (status_dict "error" "No valid representation or array" []), (init, [])))
  /\ (reader init = None
      /\ generate_contours dataset_engine "Temperature" 5 (init, [])
         = (inr (status_dict "error" "No valid data or array" []), (init, [])))
  /\ (view init = None
      /\ export_image dataset_engine "a.png" 1920 1080 (init, [])
         = (inr (status_dict "error" "No valid view" []), (init, []))).
Proof.
  destruct (guards_refuse_without_engine dataset_engine init []) as (Hcolor & Hcontour & Hexport).
  split; [|split]; (split; [reflexivity|]).
  - apply Hcolor. left. reflexivity.
  - apply Hcontour. left. reflexivity.
  - apply Hexport. reflexivity.
Defined.

Lemma initialize_records_arrays_witness :
  exists reply self' log',
    initialize_visualization dataset_engine (init, []) = (inr reply, (self', log'))
    /\ is_success reply = true
    /\ pfield "data_arrays" reply
       = Some (PList (List.map data_array_dict (data_arrays self')))
    /\ exists before point_data n after,
        log' = ([] ++ before ++ GetNumberOfArrays point_data :: after)%list
        /\ dataset_engine ([] ++ before)%list (GetNumberOfArrays point_data) = inr n
        /\ List.length (data_arrays self') = Z.to_nat n.
Proof.
  let run := eval vm_compute in (initialize_visualization dataset_engine (init, [])) in
  lazymatch run with
  | (inr ?reply, (?self', ?log')) => exists reply, self', log'
  end.
  split; [vm_compute; reflexivity|]. split; [reflexivity|].
  apply (initialize_records_arrays dataset_engine init []);
    [vm_compute; reflexivity|reflexivity].
Defined.

Lemma initialize_enables_handlers_witness :
  exists reply self' log',
    initialize_visualization dataset_engine (init, []) = (inr reply, (self', log'))
    /\ is_success reply = true
    /\ forall later,
        (forall array_name color_map_name, array_name <> "" ->
            fst (apply_color_map dataset_engine array_name color_map_name (self', later))
            <> inr (status_dict "error" "No valid representation or array" []))
        /\ (forall array_name num_contours, array_name <> "" ->
               fst (generate_contours dataset_engine array_name num_contours (self', later))
               <> inr (status_dict "error" "No valid data or array" []))
        /\ (forall filename width height,
               fst (export_image dataset_engine filename width height (self', later))
               <> inr (status_dict "error" "No valid view" [])).
Proof.
  let run := eval vm_compute in (initialize_visualization dataset_engine (init, [])) in
  lazymatch run with
  | (inr ?reply, (?self', ?log')) => exists reply, self', log'
  end.
  split; [vm_compute; reflexivity|]. split; [reflexivity|].
  eapply (initialize_enables_handlers dataset_engine init []);
    [vm_compute; reflexivity|reflexivity].
Defined.

Lemma initialize_sets_view_witness :
  dataset_engine [] (CreateView "RenderView") = inr 1%nat
  /\ view (fst (snd (initialize_visualization dataset_engine (loaded, [])))) = Some 1%nat.
Proof.
  split; [reflexivity|].
  apply (initialize_sets_view dataset_engine loaded [] 1%nat). reflexivity.
Defined.

Lemma generate_contours_no_levels_witness :
  fst (generate_contours dataset_engine "Temperature" 0 (loaded, []))
  = inr (status_dict "success" "Generated 0 contours" [("contour_values", PList [])])
  /\ is_success (status_dict "success" "Generated 0 contours" [("contour_values", PList [])])
     = true
  /\ status_dict "success" "Generated 0 contours" [("contour_values", PList [])]
     = status_dict "success" "Generated 0 contours" [("contour_values", PList [])].
Proof.
  split; [vm_compute; reflexivity|]. split; [reflexivity|].
  apply (proj2 (generate_contours_no_levels dataset_engine "Temperature" loaded []
                  (status_dict "success" "Generated 0 contours"
                     [("contour_values", PList [])]))).
  - vm_compute. reflexivity.
  - reflexivity.
Defined.





(** A connection that closes while the second response is sent: the
    first message was answered, nothing escapes, the third message is
    never looked at and the client is forgotten. *)
Example handle_client_connection_closed :
  Mock.handle_client RefCodec.json_loads RefCodec.json_dumps RefCodec.py_repr
    Mock.init 1%nat
    [(msg_unknown_method, inr tt);
     (msg_export_image, inl (Exn "ConnectionClosedOK" "received 1000 (OK)"));
     (msg_not_json, inr tt)]
  = ([RefCodec.dq
        "{'id': 1, 'result': {'status': 'success', 'message': 'Mock response for foo'}}"],
     None, Mock.init).
Proof. vm_compute. reflexivity. Qed.

End MoreExamples.
